(** * A shallow embedding of the social-feed backend (python/)

    The REST handlers of [main.py], the ORM tables of [models.py] and the
    request schemas of [schemas.py] are embedded as pure functions over an
    explicit database state.  Every handler takes the state of the store
    and returns its HTTP response together with the new state.

    What the process reads from its environment is passed in explicitly:
    - the readings of [datetime.utcnow()], as integers (microseconds);
    - the draws of the [secrets] random source, as an [Entropy] function.
*)

From Stdlib Require Import String Ascii List ZArith Lia Bool.
Import ListNotations.

Local Open Scope string_scope.
Local Open Scope Z_scope.

(** ** models.py *)

(** [string.ascii_letters + string.digits + "_-"] *)
Definition chars : string :=
  "abcdefghijklmnopqrstuvwxyzABCDEFGHIJKLMNOPQRSTUVWXYZ0123456789_-".

(** The draws of the secure random source: [rnd k] is the raw value behind
    the k-th call of [secrets.choice] in one call of [generate_id]. *)
Definition Entropy := nat -> nat.

(** [secrets.choice(seq)] is [seq[randbelow(len(seq))]]. *)
Definition choice (seq : string) (r : nat) : ascii :=
  match String.get (r mod String.length seq) seq with
  | Some c => c
  | None => Ascii.zero
  end.

(** [''.join(secrets.choice(chars) for _ in range(8))] *)
Definition random_part (rnd : Entropy) : string :=
  string_of_list_ascii (map (fun k => choice chars (rnd k)) (seq 0 8)).

(** [f"{prefix}_{random_part}"] *)
Definition generate_id (prefix : string) (rnd : Entropy) : string :=
  prefix ++ "_" ++ random_part rnd.

(** Timestamps: a reading of [datetime.utcnow()]. *)
Definition datetime := Z.

Module Post.
Record t := mk
  { id : string;
    username : string;
    content : string;
    createdAt : datetime;
    updatedAt : datetime;
    likes : Z }.
End Post.

Module Comment.
Record t := mk
  { id : string;
    postId : string;
    username : string;
    content : string;
    createdAt : datetime;
    updatedAt : datetime }.
End Comment.

Module Like.
Record t := mk
  { id : Z;
    postId : string;
    username : string;
    createdAt : datetime }.
End Like.

(** The three tables, rows in insertion order. *)
Record DB := mkDB
  { posts : list Post.t;
    comments : list Comment.t;
    likes : list Like.t }.

Definition empty_db : DB := mkDB [] [] [].

(** ** schemas.py *)

Module Schemas.

(** [PostBase], [NewPost], [UpdatePost] *)
Record PostBase := mkPostBase
  { username : string;
    content : string }.
Definition NewPost := PostBase.
Definition UpdatePost := PostBase.

(** [CommentBase], [NewComment], [UpdateComment] *)
Record CommentBase := mkCommentBase
  { c_username : string;
    c_content : string }.
Definition NewComment := CommentBase.
Definition UpdateComment := CommentBase.

Record LikeRequest := mkLikeRequest
  { l_username : string }.

(** [Field(..., min_length=1)] *)
Definition min_length (n : nat) (s : string) : bool :=
  (n <=? String.length s)%nat.

Definition valid_PostBase (b : PostBase) : bool :=
  min_length 1 (username b) && min_length 1 (content b).

Definition valid_CommentBase (b : CommentBase) : bool :=
  min_length 1 (c_username b) && min_length 1 (c_content b).

Definition valid_LikeRequest (b : LikeRequest) : bool :=
  min_length 1 (l_username b).

(** One character of the class [[A-Za-z0-9_-]]. *)
Definition id_char (c : ascii) : bool :=
  let n := nat_of_ascii c in
  ((65 <=? n) && (n <=? 90) || (97 <=? n) && (n <=? 122)
   || (48 <=? n) && (n <=? 57) || (n =? 95) || (n =? 45))%nat.

(** [pattern=r"^[A-Za-z0-9_-]+$"] *)
Definition id_pattern (s : string) : bool :=
  match list_ascii_of_string s with
  | [] => false
  | cs => forallb id_char cs
  end.

End Schemas.

(** ** main.py *)

(** The database exceptions the handlers can meet. *)
Inductive Exn :=
| IntegrityError     (* a PRIMARY KEY or UNIQUE constraint failed *)
| StaleDataError.    (* an UPDATE matched no row *)

(** What a request is answered with. *)
Inductive Response :=
| PostResponse (status_code : Z) (post : Post.t)
| PostListResponse (status_code : Z) (ps : list Post.t)
| CommentResponse (status_code : Z) (comment : Comment.t)
| CommentListResponse (status_code : Z) (cs : list Comment.t)
| EmptyResponse (status_code : Z)
    (* [Response(status_code=...)] *)
| HTTPException (status_code : Z) (code message : string)
    (* [HTTPException(status_code, detail={"code", "message"})] *)
| ServerError (e : Exn)
    (* [HTTPException(500, detail={"code": "SERVER_ERROR", "message": str(e)})] *)
| RequestValidationError.
    (* the body failed its schema: the framework answers 422 and the
       handler is not called *)

Definition status_of (r : Response) : Z :=
  match r with
  | PostResponse s _ | PostListResponse s _
  | CommentResponse s _ | CommentListResponse s _
  | EmptyResponse s | HTTPException s _ _ => s
  | ServerError _ => 500
  | RequestValidationError => 422
  end.

(** Python's [not s] on a [str]. *)
Definition falsy (s : string) : bool :=
  match s with
  | EmptyString => true
  | String _ _ => false
  end.

Definition not_found (what : string) : Response :=
  HTTPException 404 "NOT_FOUND" (what ++ " not found").

Definition bad_request_fields : Response :=
  HTTPException 400 "BAD_REQUEST" "Invalid input for required fields.".

Definition bad_request_username : Response :=
  HTTPException 400 "BAD_REQUEST" "Invalid input for required field 'username'.".

(** *** Queries *)

(** [db.query(DBPost).filter(DBPost.id == postId).first()] *)
Definition find_post (db : DB) (postId : string) : option Post.t :=
  find (fun p => Post.id p =? postId)%string (posts db).

(** [db.query(DBComment).filter(DBComment.id == commentId,
    DBComment.postId == postId).first()] *)
Definition find_comment (db : DB) (postId commentId : string) : option Comment.t :=
  find (fun c => (Comment.id c =? commentId)%string
                 && (Comment.postId c =? postId)%string) (comments db).

(** [db.query(DBLike).filter(DBLike.postId == postId,
    DBLike.username == username).first()] *)
Definition find_like (db : DB) (postId username : string) : option Like.t :=
  find (fun l => (Like.postId l =? postId)%string
                 && (Like.username l =? username)%string) (likes db).

(** The rows of [comments] and [likes] that reference a post. *)
Definition comments_of (db : DB) (postId : string) : list Comment.t :=
  filter (fun c => Comment.postId c =? postId)%string (comments db).

Definition likes_of (db : DB) (postId : string) : list Like.t :=
  filter (fun l => Like.postId l =? postId)%string (likes db).

(** *** Writes *)

(** [UPDATE posts SET ... WHERE posts.id = ?] *)
Definition write_post (p' : Post.t) (db : DB) : DB :=
  mkDB (map (fun p => if (Post.id p =? Post.id p')%string then p' else p) (posts db))
       (comments db) (likes db).

(** [UPDATE comments SET ... WHERE comments.id = ?] *)
Definition write_comment (c' : Comment.t) (db : DB) : DB :=
  mkDB (posts db)
       (map (fun c => if (Comment.id c =? Comment.id c')%string then c' else c)
            (comments db))
       (likes db).

(** The integer primary key of a new [likes] row: one more than the
    largest in the table. *)
Definition next_like_id (ls : list Like.t) : Z :=
  1 + fold_right (fun l m => Z.max (Like.id l) m) 0 ls.

(** *** Post endpoints *)

Definition list_posts (db : DB) : Response * DB :=
  (PostListResponse 200 (posts db), db).

Definition create_post (rnd : Entropy) (t_created t_updated : datetime)
    (post : Schemas.NewPost) (db : DB) : Response * DB :=
  if falsy (Schemas.username post) || falsy (Schemas.content post) then
    (bad_request_fields, db)
  else
    let db_post :=
      Post.mk (generate_id "p" rnd) (Schemas.username post)
              (Schemas.content post) t_created t_updated 0 in
    match find_post db (Post.id db_post) with
    | Some _ => (ServerError IntegrityError, db)
    | None =>
        (PostResponse 201 db_post,
         mkDB (posts db ++ [db_post]) (comments db) (likes db))
    end.

Definition get_post (postId : string) (db : DB) : Response * DB :=
  match find_post db postId with
  | None => (not_found "Post", db)
  | Some post => (PostResponse 200 post, db)
  end.

(** What a PATCH leaves in [updatedAt].  The handler assigns its own
    reading [now] of the clock.  An attribute assigned the value it was
    loaded with is not a change and is left out of the UPDATE; the
    [onupdate] hook of the column then stamps the row with its own reading
    [t_flush], taken at the flush, if the UPDATE is emitted at all, that
    is if [username] or [content] changed ([changed]). *)
Definition patch_stamp (now t_flush loaded : datetime) (changed : bool)
    : datetime :=
  if now =? loaded then (if changed then t_flush else loaded) else now.

(** [now] is the reading of line 176, [t_flush] the reading the
    [onupdate] hook takes at the commit.  When no attribute changed the
    commit emits no UPDATE and the refreshed post is the stored one. *)
Definition update_post (now t_flush : datetime) (postId : string)
    (post_update : Schemas.UpdatePost) (db : DB) : Response * DB :=
  match find_post db postId with
  | None => (not_found "Post", db)
  | Some post =>
      if falsy (Schemas.username post_update)
         || falsy (Schemas.content post_update) then
        (bad_request_fields, db)
      else
        let changed :=
          negb (Post.username post =? Schemas.username post_update)%string
          || negb (Post.content post =? Schemas.content post_update)%string in
        let post' :=
          Post.mk (Post.id post) (Schemas.username post_update)
                  (Schemas.content post_update) (Post.createdAt post)
                  (patch_stamp now t_flush (Post.updatedAt post) changed)
                  (Post.likes post) in
        (PostResponse 200 post',
         if changed || negb (now =? Post.updatedAt post)
         then write_post post' db else db)
  end.

(** [db.delete(post)] with [cascade="all, delete-orphan"] on
    [Post.comments] and [Post.liked_by]: the rows of both collections are
    deleted with the post. *)
Definition delete_post (postId : string) (db : DB) : Response * DB :=
  match find_post db postId with
  | None => (not_found "Post", db)
  | Some post =>
      (EmptyResponse 204,
       mkDB (filter (fun p => negb (Post.id p =? Post.id post)%string) (posts db))
            (filter (fun c => negb (Comment.postId c =? Post.id post)%string)
                    (comments db))
            (filter (fun l => negb (Like.postId l =? Post.id post)%string)
                    (likes db)))
  end.

(** *** Comment endpoints *)

Definition list_comments (postId : string) (db : DB) : Response * DB :=
  match find_post db postId with
  | None => (not_found "Post", db)
  | Some _ => (CommentListResponse 200 (comments_of db postId), db)
  end.

Definition create_comment (rnd : Entropy) (t_created t_updated : datetime)
    (postId : string) (comment : Schemas.NewComment) (db : DB) : Response * DB :=
  match find_post db postId with
  | None => (not_found "Post", db)
  | Some _ =>
      if falsy (Schemas.c_username comment)
         || falsy (Schemas.c_content comment) then
        (bad_request_fields, db)
      else
        let db_comment :=
          Comment.mk (generate_id "c" rnd) postId (Schemas.c_username comment)
                     (Schemas.c_content comment) t_created t_updated in
        if existsb (fun c => Comment.id c =? Comment.id db_comment)%string
                   (comments db) then
          (ServerError IntegrityError, db)
        else
          (CommentResponse 201 db_comment,
           mkDB (posts db) (comments db ++ [db_comment]) (likes db))
  end.

Definition get_comment (postId commentId : string) (db : DB) : Response * DB :=
  match find_comment db postId commentId with
  | None => (not_found "Comment", db)
  | Some comment => (CommentResponse 200 comment, db)
  end.

(** As [update_post]: [now] is the reading of line 303, [t_flush] the
    reading of the [onupdate] hook of [Comment.updatedAt]. *)
Definition update_comment (now t_flush : datetime) (postId commentId : string)
    (comment_update : Schemas.UpdateComment) (db : DB) : Response * DB :=
  match find_comment db postId commentId with
  | None => (not_found "Comment", db)
  | Some comment =>
      if falsy (Schemas.c_username comment_update)
         || falsy (Schemas.c_content comment_update) then
        (bad_request_fields, db)
      else
        let changed :=
          negb (Comment.username comment
                =? Schemas.c_username comment_update)%string
          || negb (Comment.content comment
                   =? Schemas.c_content comment_update)%string in
        let comment' :=
          Comment.mk (Comment.id comment) (Comment.postId comment)
                     (Schemas.c_username comment_update)
                     (Schemas.c_content comment_update)
                     (Comment.createdAt comment)
                     (patch_stamp now t_flush (Comment.updatedAt comment)
                                  changed) in
        (CommentResponse 200 comment',
         if changed || negb (now =? Comment.updatedAt comment)
         then write_comment comment' db else db)
  end.

Definition delete_comment (postId commentId : string) (db : DB) : Response * DB :=
  match find_comment db postId commentId with
  | None => (not_found "Comment", db)
  | Some comment =>
      (EmptyResponse 204,
       mkDB (posts db)
            (filter (fun c => negb (Comment.id c =? Comment.id comment)%string)
                    (comments db))
            (likes db))
  end.

(** *** Like endpoints *)

(** The row a flush leaves for a post whose [likes] attribute, loaded as
    [loaded], was set to [n]: the UPDATE carries the counter and the
    [onupdate] hook of [updatedAt] stamps the row.  An attribute set to
    the value it was loaded with is not a change: there is no UPDATE. *)
Definition set_likes (now : datetime) (loaded n : Z) (row : Post.t) : Post.t :=
  if n =? loaded then row
  else Post.mk (Post.id row) (Post.username row) (Post.content row)
               (Post.createdAt row) now n.

(** [like_post], with the two moments at which it meets the database kept
    apart: [seen] is the state its queries read (lines 345 and 360),
    [store] is the state of the database when its transaction is flushed
    (line 373).  They differ only when another connection committed in
    between. *)
Definition like_post_txn (t_post t_like : datetime) (postId : string)
    (like_request : Schemas.LikeRequest) (seen store : DB) : Response * DB :=
  match find_post seen postId with
  | None => (not_found "Post", store)
  | Some post =>
      let username := Schemas.l_username like_request in
      if falsy username then (bad_request_username, store)
      else
        match find_like seen postId username with
        | Some _ => (PostResponse 200 post, store)
        | None =>
            match find_post store (Post.id post) with
            | None => (ServerError StaleDataError, store)
            | Some current =>
                match find_like store postId username with
                | Some _ =>
                    (* except IntegrityError: rollback, refresh, return *)
                    (PostResponse 200 current, store)
                | None =>
                    let db_like :=
                      Like.mk (next_like_id (likes store)) postId username t_like in
                    let post' :=
                      set_likes t_post (Post.likes post) (Post.likes post + 1) current in
                    (PostResponse 200 post',
                     mkDB (posts (write_post post' store)) (comments store)
                          (likes store ++ [db_like]))
                end
            end
        end
  end.

(** [like_post] when no other connection writes during the request. *)
Definition like_post (t_post t_like : datetime) (postId : string)
    (like_request : Schemas.LikeRequest) (db : DB) : Response * DB :=
  like_post_txn t_post t_like postId like_request db db.

Definition unlike_post (now : datetime) (postId : string)
    (like_request : Schemas.LikeRequest) (db : DB) : Response * DB :=
  match find_post db postId with
  | None => (not_found "Post", db)
  | Some post =>
      let username := Schemas.l_username like_request in
      if falsy username then (bad_request_username, db)
      else
        match find_like db postId username with
        | Some like =>
            let post' :=
              set_likes now (Post.likes post) (Z.max 0 (Post.likes post - 1)) post in
            (PostResponse 200 post',
             mkDB (posts (write_post post' db)) (comments db)
                  (filter (fun l => negb (Like.id l =? Like.id like)) (likes db)))
        | None => (PostResponse 200 post, db)
        end
  end.

(** *** Requests *)

(** The twelve routes, each with its path parameters, its body and what
    the handler reads from the clock and the random source. *)
Inductive Request :=
| ListPosts
| CreatePost (rnd : Entropy) (t_created t_updated : datetime)
             (body : Schemas.NewPost)
| GetPost (postId : string)
| UpdatePost (now t_flush : datetime) (postId : string)
             (body : Schemas.UpdatePost)
| DeletePost (postId : string)
| ListComments (postId : string)
| CreateComment (rnd : Entropy) (t_created t_updated : datetime)
                (postId : string) (body : Schemas.NewComment)
| GetComment (postId commentId : string)
| UpdateComment (now t_flush : datetime) (postId commentId : string)
                (body : Schemas.UpdateComment)
| DeleteComment (postId commentId : string)
| LikePost (t_post t_like : datetime) (postId : string)
           (body : Schemas.LikeRequest)
| UnlikePost (now : datetime) (postId : string) (body : Schemas.LikeRequest).

(** A body parameter is validated against its schema before the handler
    runs; a body that fails is answered by the framework. *)
Definition with_body {B : Type} (valid : B -> bool) (body : B)
    (handler : B -> DB -> Response * DB) (db : DB) : Response * DB :=
  if valid body then handler body db else (RequestValidationError, db).

Definition serve (r : Request) (db : DB) : Response * DB :=
  match r with
  | ListPosts => list_posts db
  | CreatePost rnd tc tu body =>
      with_body Schemas.valid_PostBase body (create_post rnd tc tu) db
  | GetPost postId => get_post postId db
  | UpdatePost now t_flush postId body =>
      with_body Schemas.valid_PostBase body (update_post now t_flush postId) db
  | DeletePost postId => delete_post postId db
  | ListComments postId => list_comments postId db
  | CreateComment rnd tc tu postId body =>
      with_body Schemas.valid_CommentBase body (create_comment rnd tc tu postId) db
  | GetComment postId commentId => get_comment postId commentId db
  | UpdateComment now t_flush postId commentId body =>
      with_body Schemas.valid_CommentBase body
                (update_comment now t_flush postId commentId) db
  | DeleteComment postId commentId => delete_comment postId commentId db
  | LikePost tp tl postId body =>
      with_body Schemas.valid_LikeRequest body (like_post tp tl postId) db
  | UnlikePost now postId body =>
      with_body Schemas.valid_LikeRequest body (unlike_post now postId) db
  end.

(** The states the database can be in: empty after [init_db], then one
    request after the other. *)
Inductive reachable : DB -> Prop :=
| reachable_init : reachable empty_db
| reachable_serve r db : reachable db -> reachable (snd (serve r db)).

(** A run of like and unlike requests on one post. *)
Inductive LikeOp :=
| DoLike (t_post t_like : datetime) (username : string)
| DoUnlike (now : datetime) (username : string).

Definition like_op (postId : string) (db : DB) (op : LikeOp) : DB :=
  match op with
  | DoLike tp tl u => snd (like_post tp tl postId (Schemas.mkLikeRequest u) db)
  | DoUnlike now u => snd (unlike_post now postId (Schemas.mkLikeRequest u) db)
  end.

Definition like_ops (postId : string) (ops : list LikeOp) (db : DB) : DB :=
  fold_left (like_op postId) ops db.

(** *** What the tables satisfy

    [Post.likes] is kept by hand next to the [likes] table; these are the
    facts that tie the two together. *)

Definition likes_nonneg (db : DB) : Prop :=
  Forall (fun p => 0 <= Post.likes p) (posts db).

Record consistent (db : DB) : Prop := mkConsistent
  { (* the primary key of [likes] *)
    like_ids_unique : NoDup (map Like.id (likes db));
    (* no like row outlives its post *)
    like_has_post :
      forall l, In l (likes db) -> find_post db (Like.postId l) <> None;
    (* the counter is the number of like rows of the post *)
    likes_counted :
      forall p, In p (posts db) ->
                Post.likes p = Z.of_nat (length (likes_of db (Post.id p))) }.

(** *** A small database

    One post by alice, liked by bob and commented by carol, built by the
    handlers from the empty database. *)

Definition rnd_a : Entropy := fun _ => 0%nat.
Definition rnd_b : Entropy := fun k => S k.

Definition alice_post : Post.t :=
  Post.mk "p_aaaaaaaa" "alice" "hello" 100 100 0.

Definition db_posted : DB :=
  snd (serve (CreatePost rnd_a 100 100 (Schemas.mkPostBase "alice" "hello"))
             empty_db).

Definition db_liked : DB :=
  snd (serve (LikePost 200 201 "p_aaaaaaaa" (Schemas.mkLikeRequest "bob"))
             db_posted).

Definition db_commented : DB :=
  snd (serve (CreateComment rnd_b 300 300 "p_aaaaaaaa"
                            (Schemas.mkCommentBase "carol" "nice"))
             db_liked).

Definition db_two_posts : DB :=
  snd (serve (CreatePost rnd_b 400 400 (Schemas.mkPostBase "dave" "hi"))
             db_commented).

(** *** Response models and keys *)

(** The response model [Post] of schemas.py: the fields of [PostBase], an
    [id] of the identifier pattern and [likes] with [ge=0]. *)
Definition response_model_Post (p : Post.t) : bool :=
  Schemas.min_length 1 (Post.username p)
  && Schemas.min_length 1 (Post.content p)
  && Schemas.id_pattern (Post.id p)
  && (0 <=? Post.likes p).

(** The response model [Comment] of schemas.py: the fields of
    [CommentBase], [id] and [postId] of the identifier pattern. *)
Definition response_model_Comment (c : Comment.t) : bool :=
  Schemas.min_length 1 (Comment.username c)
  && Schemas.min_length 1 (Comment.content c)
  && Schemas.id_pattern (Comment.id c)
  && Schemas.id_pattern (Comment.postId c).

(** The columns of [UniqueConstraint('postId', 'username')]. *)
Definition like_key (l : Like.t) : string * string :=
  (Like.postId l, Like.username l).

(** What the keys and constraints of models.py and the schemas of
    schemas.py ask of the stored rows. *)
Record integrity (db : DB) : Prop := mkIntegrity
  { (* the primary keys of [posts] and [comments] *)
    post_ids_unique : NoDup (map Post.id (posts db));
    comment_ids_unique : NoDup (map Comment.id (comments db));
    (* [ForeignKey("posts.id")] of [Comment.postId] *)
    comment_has_post :
      forall c, In c (comments db) -> find_post db (Comment.postId c) <> None;
    (* [unique_post_user_like] *)
    like_keys_unique : NoDup (map like_key (likes db));
    (* every row can be serialised through its response model *)
    posts_valid :
      forall p, In p (posts db) -> response_model_Post p = true;
    comments_valid :
      forall c, In c (comments db) -> response_model_Comment c = true }.

(** The four requests that build [db_two_posts]. *)
Definition four_requests : list Request :=
  [ CreatePost rnd_a 100 100 (Schemas.mkPostBase "alice" "hello");
    LikePost 200 201 "p_aaaaaaaa" (Schemas.mkLikeRequest "bob");
    CreateComment rnd_b 300 300 "p_aaaaaaaa"
                  (Schemas.mkCommentBase "carol" "nice");
    CreatePost rnd_b 400 400 (Schemas.mkPostBase "dave" "hi") ].

(** *** Requests served one after another *)

(** A list of requests, each served to its end before the next starts. *)
Definition serve_all (rs : list Request) (db : DB) : DB :=
  fold_left (fun d r => snd (serve r d)) rs db.

(** Every comment and every like row belongs to a stored post. *)
Definition references_ok (db : DB) : Prop :=
  (forall c, In c (comments db) -> find_post db (Comment.postId c) <> None)
  /\ (forall l, In l (likes db) -> find_post db (Like.postId l) <> None).

(** * Properties *)

(** ** The identifier generator *)

Section GenerateId.

Lemma chars_length : String.length chars = 64%nat.
Proof. reflexivity. Qed.

(** Whatever the draw, [choice chars] is one of the 64 characters, and
    each of them is in the class of the identifier pattern. *)
Lemma choice_chars (r : nat) :
  In (choice chars r) (list_ascii_of_string chars)
  /\ Schemas.id_char (choice chars r) = true.
Proof.
  unfold choice. rewrite chars_length.
  assert (Hlt : (r mod 64 < 64)%nat) by (apply Nat.mod_upper_bound; discriminate).
  assert (Hall : forallb (fun n =>
            match String.get n chars with
            | Some c => existsb (Ascii.eqb c) (list_ascii_of_string chars)
                        && Schemas.id_char c
            | None => false
            end) (seq 0 64) = true) by (vm_compute; reflexivity).
  rewrite forallb_forall in Hall.
  specialize (Hall (r mod 64)%nat).
  rewrite in_seq in Hall.
  assert (Hin : (0 <= r mod 64 < 0 + 64)%nat) by lia.
  specialize (Hall Hin).
  destruct (String.get (r mod 64) chars) as [c|]; [|discriminate].
  apply andb_true_iff in Hall. destruct Hall as [Hex Hid].
  split; [|exact Hid].
  apply existsb_exists in Hex. destruct Hex as [x [Hx Heq]].
  apply Ascii.eqb_eq in Heq. subst x. exact Hx.
Qed.

Lemma random_part_length (rnd : Entropy) :
  String.length (random_part rnd) = 8%nat.
Proof. reflexivity. Qed.

Lemma random_part_chars (rnd : Entropy) :
  Forall (fun c => In c (list_ascii_of_string chars)
                   /\ Schemas.id_char c = true)
         (list_ascii_of_string (random_part rnd)).
Proof.
  unfold random_part. rewrite list_ascii_of_string_of_list_ascii.
  apply Forall_map. apply Forall_forall. intros k _. apply choice_chars.
Qed.

Lemma id_pattern_generate_id (c : ascii) (rnd : Entropy) :
  Schemas.id_char c = true ->
  Schemas.id_pattern (generate_id (String c EmptyString) rnd) = true.
Proof.
  intros Hc. unfold Schemas.id_pattern, generate_id.
  change (list_ascii_of_string (String c "" ++ "_" ++ random_part rnd))
    with (c :: "_"%char :: list_ascii_of_string (random_part rnd)).
  cbv beta iota. change (forallb Schemas.id_char (c :: "_"%char :: ?l))
    with (Schemas.id_char c && (Schemas.id_char "_"%char && forallb Schemas.id_char l)).
  rewrite Hc. cbn [andb].
  change (Schemas.id_char "_") with true. cbn [andb].
  apply forallb_forall. intros x Hx.
  pose proof (random_part_chars rnd) as H.
  rewrite Forall_forall in H. apply H in Hx. tauto.
Qed.

End GenerateId.

(** C8. For every prefix, [generate_id] returns the prefix, an underscore
    and a token of exactly 8 characters, each drawn from the ASCII
    letters, the digits, the underscore and the hyphen.  With the prefixes
    "p" and "c" the identifier matches the pattern [^[A-Za-z0-9_-]+$];
    these are the identifiers of the posts and comments the two create
    handlers answer with. *)
Theorem generate_id_shape (prefix : string) (rnd : Entropy) :
  (exists token,
      generate_id prefix rnd = prefix ++ "_" ++ token
      /\ String.length token = 8%nat
      /\ Forall (fun c => In c (list_ascii_of_string chars)
                          /\ Schemas.id_char c = true)
                (list_ascii_of_string token))
  /\ Schemas.id_pattern (generate_id "p" rnd) = true
  /\ Schemas.id_pattern (generate_id "c" rnd) = true
  /\ (forall tc tu body db,
         match fst (create_post rnd tc tu body db) with
         | PostResponse _ p => Schemas.id_pattern (Post.id p) = true
         | _ => True
         end)
  /\ (forall tc tu postId body db,
         match fst (create_comment rnd tc tu postId body db) with
         | CommentResponse _ c => Schemas.id_pattern (Comment.id c) = true
         | _ => True
         end).
Proof.
  split; [|split; [|split; [|split]]].
  - exists (random_part rnd). split; [reflexivity|].
    split; [apply random_part_length | apply random_part_chars].
  - apply id_pattern_generate_id. reflexivity.
  - apply id_pattern_generate_id. reflexivity.
  - intros tc tu body db. unfold create_post.
    destruct (falsy _ || falsy _); [exact I|].
    destruct (find_post db _); [exact I|].
    cbn [fst Post.id]. apply id_pattern_generate_id. reflexivity.
  - intros tc tu postId body db. unfold create_comment.
    destruct (find_post db postId); [|exact I].
    destruct (falsy _ || falsy _); [exact I|].
    destruct (existsb _ _); [exact I|].
    cbn [fst Comment.id]. apply id_pattern_generate_id. reflexivity.
Qed.

(** ** Lookups and writes *)

Section Tables.

Lemma find_post_some db postId p :
  find_post db postId = Some p -> In p (posts db) /\ Post.id p = postId.
Proof.
  unfold find_post. intros H. apply find_some in H.
  destruct H as [Hin Heq]. apply String.eqb_eq in Heq. auto.
Qed.

Lemma find_post_none db postId :
  find_post db postId = None ->
  forall p, In p (posts db) -> Post.id p <> postId.
Proof.
  unfold find_post. intros H p Hin Heq.
  apply (find_none _ _ H) in Hin. apply String.eqb_neq in Hin. auto.
Qed.

(** After [UPDATE posts ... WHERE id = ?] the row read back under that
    id is the row written. *)
Lemma find_post_write db p p' :
  find_post db (Post.id p') = Some p ->
  find_post (write_post p' db) (Post.id p') = Some p'.
Proof.
  unfold find_post, write_post. cbn [posts].
  induction (posts db) as [|q qs IH]; cbn [find map]; [discriminate|].
  destruct (Post.id q =? Post.id p')%string eqn:E.
  - intros _. rewrite String.eqb_refl. reflexivity.
  - rewrite E. exact IH.
Qed.

Lemma find_post_write_other db p' postId :
  postId <> Post.id p' ->
  find_post (write_post p' db) postId = find_post db postId.
Proof.
  intros Hne. unfold find_post, write_post. cbn [posts].
  induction (posts db) as [|q qs IH]; cbn [find map]; [reflexivity|].
  destruct (Post.id q =? Post.id p')%string eqn:E.
  - apply String.eqb_eq in E.
    assert (H1 : (Post.id p' =? postId)%string = false)
      by (apply String.eqb_neq; congruence).
    assert (H2 : (Post.id q =? postId)%string = false)
      by (apply String.eqb_neq; congruence).
    rewrite H1, H2. exact IH.
  - destruct (Post.id q =? postId)%string; [reflexivity | exact IH].
Qed.

Lemma find_like_some db postId username l :
  find_like db postId username = Some l ->
  In l (likes db) /\ Like.postId l = postId /\ Like.username l = username.
Proof.
  unfold find_like. intros H. apply find_some in H.
  destruct H as [Hin Heq]. apply andb_true_iff in Heq.
  destruct Heq as [H1 H2].
  apply String.eqb_eq in H1. apply String.eqb_eq in H2. auto.
Qed.

(** A like row just inserted is found by the existence lookup. *)
Lemma find_like_inserted ps cs ls postId username k t :
  find_like (mkDB ps cs (ls ++ [Like.mk k postId username t])) postId username
  <> None.
Proof.
  unfold find_like. cbn [likes].
  induction ls as [|l ls IH]; cbn [app find Like.postId Like.username].
  - rewrite !String.eqb_refl. discriminate.
  - destruct (_ && _); [discriminate | exact IH].
Qed.

Lemma set_likes_id now loaded n row :
  Post.id (set_likes now loaded n row) = Post.id row.
Proof. unfold set_likes. destruct (n =? loaded); reflexivity. Qed.

End Tables.

(** ** Like and unlike on one post *)

(** C1. Liking twice is liking once.  For an existing post and a
    non-empty username the first like answers 200 with the post as stored;
    the same like again answers 200 with that same post (so the same
    [likes]) and leaves the database as it is.  The same holds when the
    duplicate shows only at the flush: if the state the request read had
    no like of the pair but the database holds one when the transaction is
    flushed (the unique constraint fails with an IntegrityError), the
    request answers 200 with the post as currently stored and writes
    nothing. *)
Theorem like_post_idempotent (tp1 tl1 tp2 tl2 : datetime) (postId : string)
    (req : Schemas.LikeRequest) (db : DB) (post : Post.t) :
  find_post db postId = Some post ->
  falsy (Schemas.l_username req) = false ->
  (exists p1 db1,
      like_post tp1 tl1 postId req db = (PostResponse 200 p1, db1)
      /\ find_post db1 postId = Some p1
      /\ like_post tp2 tl2 postId req db1 = (PostResponse 200 p1, db1))
  /\ (forall store current l,
         find_like db postId (Schemas.l_username req) = None ->
         find_post store postId = Some current ->
         find_like store postId (Schemas.l_username req) = Some l ->
         like_post_txn tp1 tl1 postId req db store
         = (PostResponse 200 current, store)).
Proof.
  intros Hpost Hname.
  destruct (find_post_some _ _ _ Hpost) as [_ Hid].
  split.
  - unfold like_post at 1. unfold like_post_txn.
    rewrite Hpost, Hname.
    destruct (find_like db postId (Schemas.l_username req)) as [l|] eqn:Hlike.
    + exists post, db. split; [reflexivity|]. split; [exact Hpost|].
      unfold like_post, like_post_txn. rewrite Hpost, Hname, Hlike. reflexivity.
    + rewrite Hid, Hpost.
      set (post' := set_likes tp1 (Post.likes post) (Post.likes post + 1) post).
      set (db_like := Like.mk _ _ _ _).
      set (db1 := mkDB _ _ _).
      assert (Hid' : Post.id post' = postId)
        by (unfold post'; rewrite set_likes_id; exact Hid).
      assert (Hpost1 : find_post db1 postId = Some post').
      { change (find_post db1 postId)
          with (find_post (write_post post' db) postId).
        rewrite <- Hid'. apply (find_post_write db post).
        rewrite Hid'. exact Hpost. }
      exists post', db1. split; [reflexivity|]. split; [exact Hpost1|].
      unfold like_post, like_post_txn. rewrite Hpost1, Hname.
      destruct (find_like db1 postId (Schemas.l_username req)) eqn:Hlike1;
        [reflexivity|].
      exfalso. revert Hlike1. apply find_like_inserted.
  - intros store current l Hseen Hcur Hdup.
    unfold like_post_txn. rewrite Hpost, Hname, Hseen, Hid, Hcur, Hdup.
    reflexivity.
Qed.

(** C3. Unliking what was never liked changes nothing.  For an existing
    post and a non-empty username with no like row of the pair,
    [unlike_post] answers 200 with the post as stored and leaves the
    database, so [likes] and the like rows, as it is. *)
Theorem unlike_post_never_liked (now : datetime) (postId : string)
    (req : Schemas.LikeRequest) (db : DB) (post : Post.t) :
  find_post db postId = Some post ->
  falsy (Schemas.l_username req) = false ->
  (forall l, In l (likes db) ->
             ~ (Like.postId l = postId
                /\ Like.username l = Schemas.l_username req)) ->
  unlike_post now postId req db = (PostResponse 200 post, db).
Proof.
  intros Hpost Hname Hnone. unfold unlike_post. rewrite Hpost, Hname.
  destruct (find_like db postId (Schemas.l_username req)) as [l|] eqn:Hlike;
    [|reflexivity].
  apply find_like_some in Hlike. destruct Hlike as [Hin Heq].
  exfalso. exact (Hnone l Hin Heq).
Qed.

(** C10. A like that inserts a row and an unlike that deletes one write
    only the counter and [updatedAt] of the post.  The post read back has
    the [id], [username], [content] and [createdAt] it had; its [likes] is
    one more (like) or one less, not below 0 (unlike); when the counter
    changed its [updatedAt] is the clock reading of the flush.  The other
    posts and all comments are as they were. *)
Theorem like_unlike_frame (tp tl : datetime) (postId : string)
    (req : Schemas.LikeRequest) (db : DB) (post : Post.t) :
  find_post db postId = Some post ->
  falsy (Schemas.l_username req) = false ->
  (find_like db postId (Schemas.l_username req) = None ->
   exists post' db',
     like_post tp tl postId req db = (PostResponse 200 post', db')
     /\ find_post db' postId = Some post'
     /\ Post.id post' = Post.id post
     /\ Post.username post' = Post.username post
     /\ Post.content post' = Post.content post
     /\ Post.createdAt post' = Post.createdAt post
     /\ Post.likes post' = Post.likes post + 1
     /\ Post.updatedAt post' = tp
     /\ comments db' = comments db
     /\ (forall other, other <> postId ->
                       find_post db' other = find_post db other))
  /\ (forall like,
         find_like db postId (Schemas.l_username req) = Some like ->
         exists post' db',
           unlike_post tp postId req db = (PostResponse 200 post', db')
           /\ find_post db' postId = Some post'
           /\ Post.id post' = Post.id post
           /\ Post.username post' = Post.username post
           /\ Post.content post' = Post.content post
           /\ Post.createdAt post' = Post.createdAt post
           /\ Post.likes post' = Z.max 0 (Post.likes post - 1)
           /\ (Post.likes post' <> Post.likes post -> Post.updatedAt post' = tp)
           /\ comments db' = comments db
           /\ (forall other, other <> postId ->
                             find_post db' other = find_post db other)).
Proof.
  intros Hpost Hname.
  destruct (find_post_some _ _ _ Hpost) as [_ Hid]. subst postId.
  split.
  - intros Hlike. unfold like_post, like_post_txn.
    rewrite Hpost, Hname, Hlike, Hpost.
    set (post' := set_likes tp (Post.likes post) (Post.likes post + 1) post).
    assert (Hrow : post' = Post.mk (Post.id post) (Post.username post)
                     (Post.content post) (Post.createdAt post) tp
                     (Post.likes post + 1)).
    { unfold post', set_likes.
      destruct (Post.likes post + 1 =? Post.likes post) eqn:E; [|reflexivity].
      apply Z.eqb_eq in E. lia. }
    eexists. eexists. split; [reflexivity|].
    assert (Hid' : Post.id post' = Post.id post) by (rewrite Hrow; reflexivity).
    split.
    { change (find_post (write_post post' db) (Post.id post) = Some post').
      rewrite <- Hid'. apply (find_post_write db post).
      rewrite Hid'. exact Hpost. }
    split; [rewrite Hrow; reflexivity|].
    do 5 (split; [rewrite Hrow; reflexivity|]).
    split; [reflexivity|].
    intros other Hne.
    change (find_post (write_post post' db) other = find_post db other).
    apply find_post_write_other. congruence.
  - intros like Hlike. unfold unlike_post. rewrite Hpost, Hname, Hlike.
    set (n := Z.max 0 (Post.likes post - 1)).
    set (post' := set_likes tp (Post.likes post) n post).
    assert (Hid' : Post.id post' = Post.id post)
      by (unfold post'; apply set_likes_id).
    eexists. eexists. split; [reflexivity|].
    split.
    { change (find_post (write_post post' db) (Post.id post) = Some post').
      rewrite <- Hid'. apply (find_post_write db post).
      rewrite Hid'. exact Hpost. }
    assert (Hfields : Post.id post' = Post.id post
                      /\ Post.username post' = Post.username post
                      /\ Post.content post' = Post.content post
                      /\ Post.createdAt post' = Post.createdAt post
                      /\ Post.likes post' = n
                      /\ (Post.likes post' <> Post.likes post ->
                          Post.updatedAt post' = tp)).
    { unfold post', set_likes. destruct (n =? Post.likes post) eqn:E.
      - apply Z.eqb_eq in E. repeat split; try reflexivity; [congruence|].
        intros H. exfalso. apply H. reflexivity.
      - cbn. repeat split; reflexivity. }
    destruct Hfields as (H1 & H2 & H3 & H4 & H5 & H6).
    do 6 (split; [assumption|]).
    split; [reflexivity|].
    intros other Hne.
    change (find_post (write_post post' db) other = find_post db other).
    apply find_post_write_other. congruence.
Qed.

(** ** Validation of a new post *)

(** C4, as the code has it.  A create-post body whose [username] or
    [content] is empty never creates a post, whatever the other field is.
    On the route the body fails the [NewPost] schema ([min_length=1]), so
    the handler is not called and the answer is the framework's 422; the
    handler's own check, run on such a body, answers 400 with code
    "BAD_REQUEST" and message "Invalid input for required fields.". *)
Theorem create_post_empty_field (rnd : Entropy) (tc tu : datetime)
    (body : Schemas.NewPost) (db : DB) :
  Schemas.username body = "" \/ Schemas.content body = "" ->
  serve (CreatePost rnd tc tu body) db = (RequestValidationError, db)
  /\ create_post rnd tc tu body db
     = (HTTPException 400 "BAD_REQUEST" "Invalid input for required fields.", db).
Proof.
  intros H. unfold serve, with_body, create_post, Schemas.valid_PostBase.
  destruct body as [u c]. cbn [Schemas.username Schemas.content] in *.
  destruct H as [H|H]; subst.
  - split; reflexivity.
  - cbn [falsy]. rewrite orb_true_r, andb_false_r. split; reflexivity.
Qed.

(** ** Deleting a post *)

Section Cascade.

Lemma find_filter_none {A : Type} (f g : A -> bool) (l : list A) :
  (forall x, f x = true -> g x = true) ->
  find f (filter (fun x => negb (g x)) l) = None.
Proof.
  intros Hfg. induction l as [|x l IH]; cbn [filter find]; [reflexivity|].
  destruct (g x) eqn:Eg; cbn [negb]; [exact IH|].
  cbn [find]. destruct (f x) eqn:Ef; [|exact IH].
  apply Hfg in Ef. congruence.
Qed.

Lemma filter_filter_negb {A : Type} (f : A -> bool) (l : list A) :
  filter f (filter (fun x => negb (f x)) l) = [].
Proof.
  induction l as [|x l IH]; cbn [filter]; [reflexivity|].
  destruct (f x) eqn:Ef; cbn [negb]; [exact IH|].
  cbn [filter]. rewrite Ef. exact IH.
Qed.

End Cascade.

(** C5. Deleting an existing post answers 204 and takes its comments and
    its likes with it: afterwards no comment row and no like row
    references the post, a get of the post answers 404, and a get of any
    comment that was on the post answers 404. *)
Theorem delete_post_cascades (postId : string) (db : DB) (post : Post.t) :
  find_post db postId = Some post ->
  exists db',
    delete_post postId db = (EmptyResponse 204, db')
    /\ get_post postId db' = (HTTPException 404 "NOT_FOUND" "Post not found", db')
    /\ comments_of db' postId = []
    /\ likes_of db' postId = []
    /\ (forall c, In c (comments db) -> Comment.postId c = postId ->
                  ~ In c (comments db')
                  /\ get_comment postId (Comment.id c) db'
                     = (HTTPException 404 "NOT_FOUND" "Comment not found", db'))
    /\ (forall l, In l (likes db) -> Like.postId l = postId ->
                  ~ In l (likes db')).
Proof.
  intros Hpost.
  destruct (find_post_some _ _ _ Hpost) as [_ Hid]. subst postId.
  unfold delete_post. rewrite Hpost.
  eexists. split; [reflexivity|].
  split.
  { unfold get_post, find_post. cbn [posts].
    rewrite find_filter_none; [reflexivity | auto]. }
  split; [apply filter_filter_negb|].
  split; [apply filter_filter_negb|].
  split.
  - intros c Hin Hc. split.
    + cbn [comments]. rewrite filter_In. intros [_ Hneg].
      rewrite Hc, String.eqb_refl in Hneg. discriminate.
    + unfold get_comment, find_comment. cbn [comments].
      rewrite find_filter_none; [reflexivity|].
      intros x Hx. apply andb_true_iff in Hx. tauto.
  - intros l Hin Hl. cbn [likes]. rewrite filter_In. intros [_ Hneg].
    rewrite Hl, String.eqb_refl in Hneg. discriminate.
Qed.

(** ** Comments are addressed under their post *)

(** C9. A comment is found by its id and the post id of the path
    together.  When every comment with the given id belongs to another
    post (and equally when there is none), get, update and delete answer
    404 with code "NOT_FOUND" and leave the database as it is; the update
    handler does so whatever the body, its route for every body that
    passes the schema. *)
Theorem comment_of_other_post (now t_flush : datetime)
    (postId commentId : string)
    (body : Schemas.UpdateComment) (db : DB) :
  (forall c, In c (comments db) -> Comment.id c = commentId ->
             Comment.postId c <> postId) ->
  get_comment postId commentId db
  = (HTTPException 404 "NOT_FOUND" "Comment not found", db)
  /\ update_comment now t_flush postId commentId body db
     = (HTTPException 404 "NOT_FOUND" "Comment not found", db)
  /\ delete_comment postId commentId db
     = (HTTPException 404 "NOT_FOUND" "Comment not found", db)
  /\ (Schemas.valid_CommentBase body = true ->
      serve (UpdateComment now t_flush postId commentId body) db
      = (HTTPException 404 "NOT_FOUND" "Comment not found", db)).
Proof.
  intros Hother.
  assert (Hnone : find_comment db postId commentId = None).
  { unfold find_comment.
    destruct (find _ (comments db)) as [c|] eqn:E; [|reflexivity].
    apply find_some in E. destruct E as [Hin Hc].
    apply andb_true_iff in Hc. destruct Hc as [H1 H2].
    apply String.eqb_eq in H1. apply String.eqb_eq in H2.
    exfalso. exact (Hother c Hin H1 H2). }
  unfold serve, with_body, get_comment, update_comment, delete_comment.
  rewrite Hnone.
  split; [reflexivity|]. split; [reflexivity|]. split; [reflexivity|].
  intros Hvalid. rewrite Hvalid. reflexivity.
Qed.

(** ** Updating a post or a comment *)

Lemma find_comment_write db postId c c' :
  find_comment db postId (Comment.id c') = Some c ->
  Comment.postId c' = postId ->
  find_comment (write_comment c' db) postId (Comment.id c') = Some c'.
Proof.
  unfold find_comment, write_comment. cbn [comments]. intros Hfind Hpid.
  induction (comments db) as [|x xs IH]; cbn [find map] in *; [discriminate|].
  destruct (Comment.id x =? Comment.id c')%string eqn:E.
  - rewrite String.eqb_refl, Hpid, String.eqb_refl. reflexivity.
  - rewrite E. cbn [andb] in *. exact (IH Hfind).
Qed.

(** What [update_post] does to an existing post when the body passes its
    check: the post it answers with, and the database it leaves, which is
    the old one with that post written over the stored one. *)
Lemma update_post_ok now t_flush postId body db post :
  find_post db postId = Some post ->
  falsy (Schemas.username body) || falsy (Schemas.content body) = false ->
  let changed :=
    negb (Post.username post =? Schemas.username body)%string
    || negb (Post.content post =? Schemas.content body)%string in
  let post' :=
    Post.mk postId (Schemas.username body) (Schemas.content body)
            (Post.createdAt post)
            (patch_stamp now t_flush (Post.updatedAt post) changed)
            (Post.likes post) in
  exists db',
    update_post now t_flush postId body db = (PostResponse 200 post', db')
    /\ (db' = write_post post' db \/ db' = db /\ post' = post)
    /\ find_post db' postId = Some post'.
Proof.
  intros Hpost Hf changed post'.
  destruct (find_post_some _ _ _ Hpost) as [_ Hid].
  unfold update_post. rewrite Hpost, Hf, Hid. fold changed. fold post'.
  destruct (changed || negb (now =? Post.updatedAt post)) eqn:E.
  - exists (write_post post' db). split; [reflexivity|]. split; [left; reflexivity|].
    exact (find_post_write db post post' Hpost).
  - exists db. split; [reflexivity|].
    apply orb_false_iff in E. destruct E as [Hch Hnow].
    apply negb_false_iff, Z.eqb_eq in Hnow.
    assert (Hsame : post' = post).
    { unfold post', patch_stamp. rewrite Hch, Hnow, Z.eqb_refl.
      unfold changed in Hch. apply orb_false_iff in Hch.
      destruct Hch as [Hu Hc].
      apply negb_false_iff, String.eqb_eq in Hu.
      apply negb_false_iff, String.eqb_eq in Hc.
      rewrite <- Hu, <- Hc, <- Hid. destruct post; reflexivity. }
    split; [right; split; [reflexivity | exact Hsame]|].
    rewrite Hsame. exact Hpost.
Qed.

Lemma update_comment_ok now t_flush postId commentId body db comment :
  find_comment db postId commentId = Some comment ->
  falsy (Schemas.c_username body) || falsy (Schemas.c_content body) = false ->
  let changed :=
    negb (Comment.username comment =? Schemas.c_username body)%string
    || negb (Comment.content comment =? Schemas.c_content body)%string in
  let comment' :=
    Comment.mk commentId postId (Schemas.c_username body)
               (Schemas.c_content body) (Comment.createdAt comment)
               (patch_stamp now t_flush (Comment.updatedAt comment) changed) in
  exists db',
    update_comment now t_flush postId commentId body db
    = (CommentResponse 200 comment', db')
    /\ (db' = write_comment comment' db \/ db' = db /\ comment' = comment)
    /\ find_comment db' postId commentId = Some comment'.
Proof.
  intros Hfind Hf changed comment'.
  assert (Hc : Comment.id comment = commentId /\ Comment.postId comment = postId).
  { unfold find_comment in Hfind. apply find_some in Hfind.
    destruct Hfind as [_ H]. apply andb_true_iff in H. destruct H as [H1 H2].
    apply String.eqb_eq in H1. apply String.eqb_eq in H2. auto. }
  destruct Hc as [Hcid Hpid].
  unfold update_comment. rewrite Hfind, Hf, Hcid, Hpid.
  fold changed. fold comment'.
  destruct (changed || negb (now =? Comment.updatedAt comment)) eqn:E.
  - exists (write_comment comment' db).
    split; [reflexivity|]. split; [left; reflexivity|].
    exact (find_comment_write db postId comment comment' Hfind eq_refl).
  - exists db. split; [reflexivity|].
    apply orb_false_iff in E. destruct E as [Hch Hnow].
    apply negb_false_iff, Z.eqb_eq in Hnow.
    assert (Hsame : comment' = comment).
    { unfold comment', patch_stamp. rewrite Hch, Hnow, Z.eqb_refl.
      unfold changed in Hch. apply orb_false_iff in Hch.
      destruct Hch as [Hu Hc].
      apply negb_false_iff, String.eqb_eq in Hu.
      apply negb_false_iff, String.eqb_eq in Hc.
      rewrite <- Hu, <- Hc, <- Hcid, <- Hpid. destruct comment; reflexivity. }
    split; [right; split; [reflexivity | exact Hsame]|].
    rewrite Hsame. exact Hfind.
Qed.

Lemma patch_stamp_later now t_flush loaded changed :
  loaded < now -> loaded < patch_stamp now t_flush loaded changed.
Proof.
  intros H. unfold patch_stamp. destruct (now =? loaded) eqn:E; [|exact H].
  apply Z.eqb_eq in E. lia.
Qed.

(** C6, as the code has it.  A successful PATCH of a post or of a comment
    keeps [createdAt] and leaves in [updatedAt] a reading of the clock
    taken at the write: the reading the handler assigns when it differs
    from the stored [updatedAt]; when it equals the stored one, the
    reading of the [onupdate] hook at the flush if [username] or [content]
    changed, and the stored value (nothing is written) if they did not.
    The new [updatedAt] is strictly later than the old one whenever the
    reading the handler assigns is. *)
Theorem patch_stamps_updatedAt (now t_flush : datetime)
    (postId commentId : string)
    (pbody : Schemas.UpdatePost) (cbody : Schemas.UpdateComment) (db : DB) :
  (forall post,
      find_post db postId = Some post ->
      Schemas.valid_PostBase pbody = true ->
      exists post' db',
        serve (UpdatePost now t_flush postId pbody) db
        = (PostResponse 200 post', db')
        /\ find_post db' postId = Some post'
        /\ Post.createdAt post' = Post.createdAt post
        /\ Post.updatedAt post'
           = patch_stamp now t_flush (Post.updatedAt post)
               (negb (Post.username post =? Schemas.username pbody)%string
                || negb (Post.content post =? Schemas.content pbody)%string)
        /\ (now <> Post.updatedAt post -> Post.updatedAt post' = now)
        /\ (Post.updatedAt post < now ->
            Post.updatedAt post < Post.updatedAt post'))
  /\ (forall comment,
         find_comment db postId commentId = Some comment ->
         Schemas.valid_CommentBase cbody = true ->
         exists comment' db',
           serve (UpdateComment now t_flush postId commentId cbody) db
           = (CommentResponse 200 comment', db')
           /\ find_comment db' postId commentId = Some comment'
           /\ Comment.createdAt comment' = Comment.createdAt comment
           /\ Comment.updatedAt comment'
              = patch_stamp now t_flush (Comment.updatedAt comment)
                  (negb (Comment.username comment
                         =? Schemas.c_username cbody)%string
                   || negb (Comment.content comment
                            =? Schemas.c_content cbody)%string)
           /\ (now <> Comment.updatedAt comment ->
               Comment.updatedAt comment' = now)
           /\ (Comment.updatedAt comment < now ->
               Comment.updatedAt comment < Comment.updatedAt comment')).
Proof.
  split.
  - intros post Hpost Hvalid.
    assert (Hf : falsy (Schemas.username pbody) || falsy (Schemas.content pbody)
                 = false).
    { unfold Schemas.valid_PostBase, Schemas.min_length in Hvalid.
      apply andb_true_iff in Hvalid. destruct Hvalid as [Hu Hc].
      destruct pbody as [u c]. cbn [Schemas.username Schemas.content] in *.
      destruct u; [discriminate|]. destruct c; [discriminate|]. reflexivity. }
    destruct (update_post_ok now t_flush postId pbody db post Hpost Hf)
      as (db' & Hrun & _ & Hfind).
    unfold serve, with_body. rewrite Hvalid, Hrun.
    eexists. exists db'. split; [reflexivity|]. split; [exact Hfind|].
    cbn [Post.createdAt Post.updatedAt].
    split; [reflexivity|]. split; [reflexivity|]. split.
    + intros Hne. unfold patch_stamp.
      destruct (now =? Post.updatedAt post) eqn:E; [|reflexivity].
      apply Z.eqb_eq in E. contradiction.
    + apply patch_stamp_later.
  - intros comment Hcomment Hvalid.
    assert (Hf : falsy (Schemas.c_username cbody)
                 || falsy (Schemas.c_content cbody) = false).
    { unfold Schemas.valid_CommentBase, Schemas.min_length in Hvalid.
      apply andb_true_iff in Hvalid. destruct Hvalid as [Hu Hc].
      destruct cbody as [u c]. cbn [Schemas.c_username Schemas.c_content] in *.
      destruct u; [discriminate|]. destruct c; [discriminate|]. reflexivity. }
    destruct (update_comment_ok now t_flush postId commentId cbody db comment
                Hcomment Hf) as (db' & Hrun & _ & Hfind).
    unfold serve, with_body. rewrite Hvalid, Hrun.
    eexists. exists db'. split; [reflexivity|]. split; [exact Hfind|].
    cbn [Comment.createdAt Comment.updatedAt].
    split; [reflexivity|]. split; [reflexivity|]. split.
    + intros Hne. unfold patch_stamp.
      destruct (now =? Comment.updatedAt comment) eqn:E; [|reflexivity].
      apply Z.eqb_eq in E. contradiction.
    + apply patch_stamp_later.
Qed.

(** ** The counter and the like rows *)

Section Counter.

Lemma like_id_lt_next (ls : list Like.t) (l : Like.t) :
  In l ls -> Like.id l < next_like_id ls.
Proof.
  unfold next_like_id. induction ls as [|x xs IH]; cbn [In fold_right].
  - intros [].
  - intros [->|Hin]; [lia|]. specialize (IH Hin). lia.
Qed.

Lemma NoDup_map_filter {A B : Type} (f : A -> B) (g : A -> bool) (l : list A) :
  NoDup (map f l) -> NoDup (map f (filter g l)).
Proof.
  induction l as [|x xs IH]; cbn [map filter]; intros H; [exact H|].
  inversion H as [|y ys Hnotin Hnodup]; subst.
  destruct (g x); [|exact (IH Hnodup)].
  cbn [map]. constructor; [|exact (IH Hnodup)].
  intros Hin. apply Hnotin. apply in_map_iff in Hin.
  destruct Hin as [z [Hz Hzin]]. apply filter_In in Hzin.
  apply in_map_iff. exists z. tauto.
Qed.

Lemma filter_all {A : Type} (g : A -> bool) (l : list A) :
  (forall x, In x l -> g x = true) -> filter g l = l.
Proof.
  induction l as [|x xs IH]; cbn [filter]; intros H; [reflexivity|].
  rewrite (H x (or_introl eq_refl)). f_equal. apply IH.
  intros y Hy. apply H. right. exact Hy.
Qed.

(** [DELETE FROM likes WHERE id = ?] takes exactly one row away. *)
Lemma filter_delete_like (f : Like.t -> bool) (ls : list Like.t) (like : Like.t) :
  NoDup (map Like.id ls) -> In like ls ->
  (length (filter f (filter (fun l => negb (Like.id l =? Like.id like)%Z) ls))
   + (if f like then 1 else 0))%nat
  = length (filter f ls).
Proof.
  induction ls as [|x xs IH]; cbn [map In]; intros Hnd Hin; [destruct Hin|].
  inversion Hnd as [|y ys Hnotin Hnodup]; subst.
  destruct Hin as [->|Hin].
  - cbn [filter]. rewrite Z.eqb_refl. cbn [negb].
    rewrite (filter_all _ xs).
    + destruct (f like); cbn [length]; lia.
    + intros z Hz. apply negb_true_iff. apply Z.eqb_neq. intros Heq.
      apply Hnotin. rewrite <- Heq. apply in_map. exact Hz.
  - assert (Hne : Like.id x <> Like.id like).
    { intros Heq. apply Hnotin. rewrite Heq. apply in_map. exact Hin. }
    cbn [filter]. apply Z.eqb_neq in Hne. rewrite Hne. cbn [negb filter].
    specialize (IH Hnodup Hin).
    destruct (f x); cbn [length]; lia.
Qed.

Lemma write_post_In db p' q :
  In q (posts (write_post p' db)) ->
  q = p' \/ (In q (posts db) /\ Post.id q <> Post.id p').
Proof.
  unfold write_post. cbn [posts]. rewrite in_map_iff.
  intros [x [Hx Hin]].
  destruct (Post.id x =? Post.id p')%string eqn:E.
  - left. congruence.
  - right. subst q. split; [exact Hin|]. apply String.eqb_neq. exact E.
Qed.

Lemma find_post_write_exists db p' x :
  find_post db x <> None -> find_post (write_post p' db) x <> None.
Proof.
  intros H. destruct (String.eqb_spec x (Post.id p')) as [->|Hne].
  - destruct (find_post db (Post.id p')) as [p|] eqn:E; [|congruence].
    rewrite (find_post_write db p p' E). discriminate.
  - rewrite find_post_write_other; assumption.
Qed.

Lemma find_post_app_exists ps cs ls p x :
  find_post (mkDB ps cs ls) x <> None ->
  find_post (mkDB (ps ++ [p]) cs ls) x <> None.
Proof.
  unfold find_post. cbn [posts].
  induction ps as [|q qs IH]; cbn [app find]; [congruence|].
  destruct (Post.id q =? x)%string; [discriminate | exact IH].
Qed.

(** The invariant reads the [posts] and [likes] tables only. *)
Lemma consistent_comments ps cs cs' ls :
  consistent (mkDB ps cs ls) -> consistent (mkDB ps cs' ls).
Proof.
  intros [H1 H2 H3]. constructor; assumption.
Qed.

Lemma consistent_write_post db p p' :
  consistent db ->
  find_post db (Post.id p') = Some p ->
  Post.likes p' = Post.likes p ->
  consistent (write_post p' db).
Proof.
  intros [H1 H2 H3] Hfind Hlikes.
  destruct (find_post_some _ _ _ Hfind) as [Hin Hid].
  constructor.
  - exact H1.
  - intros l Hl. apply find_post_write_exists. apply H2. exact Hl.
  - intros q Hq. apply write_post_In in Hq.
    change (likes_of (write_post p' db) (Post.id q))
      with (likes_of db (Post.id q)).
    destruct Hq as [->|[Hq _]].
    + rewrite Hlikes, <- Hid. apply H3. exact Hin.
    + apply H3. exact Hq.
Qed.

End Counter.

Section CounterSteps.

Lemma NoDup_snoc {A : Type} (l : list A) (a : A) :
  NoDup l -> ~ In a l -> NoDup (l ++ [a]).
Proof.
  induction l as [|x xs IH]; cbn [app]; intros Hnd Hnotin.
  - constructor; [intros [] | constructor].
  - inversion Hnd as [|y ys Hx Hxs]; subst. constructor.
    + rewrite in_app_iff. cbn [In]. intros [H|[H|[]]]; [auto|].
      apply Hnotin. left. symmetry. exact H.
    + apply IH; [exact Hxs|]. intros H. apply Hnotin. right. exact H.
Qed.

Lemma filter_none {A : Type} (f : A -> bool) (l : list A) :
  (forall x, In x l -> f x = false) -> filter f l = [].
Proof.
  induction l as [|x xs IH]; cbn [filter]; intros H; [reflexivity|].
  rewrite (H x (or_introl eq_refl)). apply IH.
  intros y Hy. apply H. right. exact Hy.
Qed.

Lemma filter_filter_implied {A : Type} (f g : A -> bool) (l : list A) :
  (forall x, f x = true -> g x = true) ->
  filter f (filter g l) = filter f l.
Proof.
  intros Hfg. induction l as [|x xs IH]; cbn [filter]; [reflexivity|].
  destruct (g x) eqn:Eg; cbn [filter].
  - destruct (f x); [f_equal|]; exact IH.
  - destruct (f x) eqn:Ef; [|exact IH]. apply Hfg in Ef. congruence.
Qed.

Lemma set_likes_likes now loaded n row :
  Post.likes row = loaded -> Post.likes (set_likes now loaded n row) = n.
Proof.
  intros H. unfold set_likes. destruct (n =? loaded) eqn:E; [|reflexivity].
  apply Z.eqb_eq in E. congruence.
Qed.

(** A like that inserts a row keeps the invariant. *)
Lemma consistent_like_insert db postId post tp tl username :
  consistent db ->
  find_post db postId = Some post ->
  consistent
    (mkDB (posts (write_post
                    (set_likes tp (Post.likes post) (Post.likes post + 1) post) db))
          (comments db)
          (likes db ++ [Like.mk (next_like_id (likes db)) postId username tl])).
Proof.
  intros [H1 H2 H3] Hfind.
  destruct (find_post_some _ _ _ Hfind) as [Hin Hid]. subst postId.
  set (post' := set_likes tp (Post.likes post) (Post.likes post + 1) post).
  assert (Hid' : Post.id post' = Post.id post) by apply set_likes_id.
  assert (Hl' : Post.likes post' = Post.likes post + 1)
    by (apply set_likes_likes; reflexivity).
  constructor; cbn [likes].
  - rewrite map_app. cbn [map Like.id]. apply NoDup_snoc; [exact H1|].
    intros Hdup. apply in_map_iff in Hdup. destruct Hdup as [l [Hl Hlin]].
    apply like_id_lt_next in Hlin. lia.
  - intros l Hl. apply in_app_iff in Hl.
    change (find_post (write_post post' db) (Like.postId l) <> None).
    destruct Hl as [Hl|[<-|[]]].
    + apply find_post_write_exists. apply H2. exact Hl.
    + cbn [Like.postId]. rewrite <- Hid'.
      rewrite (find_post_write db post post'); [discriminate|].
      rewrite Hid'. exact Hfind.
  - intros q Hq. change (In q (posts (write_post post' db))) in Hq.
    apply write_post_In in Hq.
    unfold likes_of. cbn [likes]. rewrite filter_app, length_app.
    cbn [filter Like.postId].
    destruct Hq as [->|[Hq Hne]].
    + rewrite Hid', String.eqb_refl, Hl'. cbn [length].
      rewrite (H3 post Hin). unfold likes_of. lia.
    + rewrite Hid' in Hne.
      assert (E : (Post.id post =? Post.id q)%string = false)
        by (apply String.eqb_neq; congruence).
      rewrite E. cbn [length]. rewrite (H3 q Hq). unfold likes_of. lia.
Qed.

(** An unlike that deletes a row keeps the invariant. *)
Lemma consistent_unlike_delete db postId post now username like :
  consistent db ->
  find_post db postId = Some post ->
  find_like db postId username = Some like ->
  consistent
    (mkDB (posts (write_post
                    (set_likes now (Post.likes post)
                               (Z.max 0 (Post.likes post - 1)) post) db))
          (comments db)
          (filter (fun l => negb (Like.id l =? Like.id like)) (likes db))).
Proof.
  intros [H1 H2 H3] Hfind Hlike.
  destruct (find_post_some _ _ _ Hfind) as [Hin Hid]. subst postId.
  destruct (find_like_some _ _ _ _ Hlike) as [Hlin [Hlpid _]].
  set (post' := set_likes now (Post.likes post) _ post).
  assert (Hid' : Post.id post' = Post.id post) by apply set_likes_id.
  assert (Hl' : Post.likes post' = Z.max 0 (Post.likes post - 1))
    by (apply set_likes_likes; reflexivity).
  constructor; cbn [likes].
  - apply NoDup_map_filter. exact H1.
  - intros l Hl. apply filter_In in Hl. destruct Hl as [Hl _].
    change (find_post (write_post post' db) (Like.postId l) <> None).
    apply find_post_write_exists. apply H2. exact Hl.
  - intros q Hq. change (In q (posts (write_post post' db))) in Hq.
    apply write_post_In in Hq.
    unfold likes_of. cbn [likes].
    pose proof (filter_delete_like
                  (fun l => (Like.postId l =? Post.id q)%string)
                  (likes db) like H1 Hlin) as Hcount.
    cbv beta in Hcount.
    destruct Hq as [->|[Hq Hne]].
    + rewrite Hid' in *. rewrite Hlpid, String.eqb_refl in Hcount.
      rewrite Hl'. pose proof (H3 post Hin) as Hp. unfold likes_of in Hp.
      lia.
    + rewrite Hid' in Hne.
      assert (E : (Like.postId like =? Post.id q)%string = false)
        by (apply String.eqb_neq; congruence).
      rewrite E in Hcount. rewrite (H3 q Hq). unfold likes_of. lia.
Qed.

End CounterSteps.

Section Reachable.

Lemma find_post_delete_other db postId x :
  x <> postId ->
  find (fun p => Post.id p =? x)%string
       (filter (fun p => negb (Post.id p =? postId)%string) (posts db))
  = find_post db x.
Proof.
  intros Hne. unfold find_post.
  induction (posts db) as [|q qs IH]; cbn [filter find]; [reflexivity|].
  destruct (Post.id q =? postId)%string eqn:E; cbn [negb find].
  - apply String.eqb_eq in E.
    assert (E' : (Post.id q =? x)%string = false)
      by (apply String.eqb_neq; congruence).
    rewrite E'. exact IH.
  - destruct (Post.id q =? x)%string; [reflexivity | exact IH].
Qed.

Lemma consistent_like_post tp tl postId req db :
  consistent db -> consistent (snd (like_post tp tl postId req db)).
Proof.
  intros Hc. unfold like_post, like_post_txn.
  destruct (find_post db postId) as [post|] eqn:Hpost; [|exact Hc].
  destruct (falsy _); [exact Hc|].
  destruct (find_like db postId _) eqn:Hlike; [exact Hc|].
  destruct (find_post_some _ _ _ Hpost) as [_ Hid].
  rewrite Hid, Hpost. cbn [snd].
  apply consistent_like_insert; assumption.
Qed.

Lemma consistent_unlike_post now postId req db :
  consistent db -> consistent (snd (unlike_post now postId req db)).
Proof.
  intros Hc. unfold unlike_post.
  destruct (find_post db postId) as [post|] eqn:Hpost; [|exact Hc].
  destruct (falsy _); [exact Hc|].
  destruct (find_like db postId _) as [like|] eqn:Hlike; [|exact Hc].
  cbn [snd]. eapply consistent_unlike_delete; eassumption.
Qed.

Lemma consistent_create_post rnd tc tu body db :
  consistent db -> consistent (snd (create_post rnd tc tu body db)).
Proof.
  intros Hc. unfold create_post.
  destruct (falsy _ || falsy _); [exact Hc|].
  cbn [Post.id].
  destruct (find_post db (generate_id "p" rnd)) eqn:Hfresh; [exact Hc|].
  destruct Hc as [H1 H2 H3]. cbn [snd]. constructor; cbn [likes].
  - exact H1.
  - intros l Hl. destruct db as [ps cs ls].
    apply find_post_app_exists. apply H2. exact Hl.
  - intros q Hq. cbn [posts] in Hq. apply in_app_iff in Hq.
    change (likes_of (mkDB _ (comments db) (likes db)) (Post.id q))
      with (likes_of db (Post.id q)).
    destruct Hq as [Hq|[<-|[]]]; [apply H3; exact Hq|].
    cbn [Post.id Post.likes]. unfold likes_of.
    rewrite filter_none; [reflexivity|].
    intros l Hl. apply String.eqb_neq. intros Heq.
    apply (H2 l Hl). rewrite Heq. exact Hfresh.
Qed.

Lemma consistent_update_post now t_flush postId body db :
  consistent db -> consistent (snd (update_post now t_flush postId body db)).
Proof.
  intros Hc. unfold update_post.
  destruct (find_post db postId) as [post|] eqn:Hpost; [|exact Hc].
  destruct (falsy _ || falsy _); [exact Hc|].
  destruct (find_post_some _ _ _ Hpost) as [_ Hid]. subst postId.
  cbn [snd]. destruct (_ || negb _); [|exact Hc].
  eapply consistent_write_post; [exact Hc | exact Hpost | reflexivity].
Qed.

Lemma consistent_delete_post postId db :
  consistent db -> consistent (snd (delete_post postId db)).
Proof.
  intros Hc. unfold delete_post.
  destruct (find_post db postId) as [post|] eqn:Hpost; [|exact Hc].
  destruct (find_post_some _ _ _ Hpost) as [_ Hid]. subst postId.
  destruct Hc as [H1 H2 H3]. cbn [snd]. constructor; cbn [likes].
  - apply NoDup_map_filter. exact H1.
  - intros l Hl. apply filter_In in Hl. destruct Hl as [Hl Hne].
    apply negb_true_iff in Hne. apply String.eqb_neq in Hne.
    unfold find_post at 1. cbn [posts].
    rewrite find_post_delete_other; [apply H2; exact Hl | exact Hne].
  - intros q Hq. cbn [posts] in Hq. apply filter_In in Hq.
    destruct Hq as [Hq Hne].
    apply negb_true_iff in Hne. apply String.eqb_neq in Hne.
    unfold likes_of at 1. cbn [likes].
    rewrite filter_filter_implied; [apply H3; exact Hq|].
    intros l Hl. apply String.eqb_eq in Hl.
    apply negb_true_iff. apply String.eqb_neq. congruence.
Qed.

(** Every request keeps the invariant. *)
Lemma consistent_serve (r : Request) (db : DB) :
  consistent db -> consistent (snd (serve r db)).
Proof.
  intros Hc. destruct r; unfold serve, with_body;
    try match goal with |- context [if ?v then _ else _] => destruct v end;
    try exact Hc.
  - apply consistent_create_post, Hc.
  - unfold get_post. destruct (find_post db postId); exact Hc.
  - apply consistent_update_post, Hc.
  - apply consistent_delete_post, Hc.
  - unfold list_comments. destruct (find_post db postId); exact Hc.
  - unfold create_comment. destruct (find_post db postId); [|exact Hc].
    destruct (falsy _ || falsy _); [exact Hc|].
    destruct (existsb _ _); [exact Hc|].
    destruct db. eapply consistent_comments. exact Hc.
  - unfold get_comment. destruct (find_comment _ _ _); exact Hc.
  - unfold update_comment. destruct (find_comment _ _ _); [|exact Hc].
    destruct (falsy _ || falsy _); [exact Hc|].
    cbn [snd]. destruct (_ || negb _); [|exact Hc].
    destruct db. eapply consistent_comments. exact Hc.
  - unfold delete_comment. destruct (find_comment _ _ _); [|exact Hc].
    destruct db. eapply consistent_comments. exact Hc.
  - apply consistent_like_post, Hc.
  - apply consistent_unlike_post, Hc.
Qed.

Lemma consistent_empty : consistent empty_db.
Proof.
  constructor; cbn.
  - constructor.
  - intros l [].
  - intros p [].
Qed.

Lemma reachable_consistent (db : DB) : reachable db -> consistent db.
Proof.
  induction 1 as [|r db _ IH]; [exact consistent_empty|].
  apply consistent_serve, IH.
Qed.

End Reachable.

Section NonNegative.

Lemma likes_nonneg_write_post db p' :
  likes_nonneg db -> 0 <= Post.likes p' -> likes_nonneg (write_post p' db).
Proof.
  unfold likes_nonneg, write_post. cbn [posts]. intros Hall Hp'.
  apply Forall_map. apply Forall_forall. intros q Hq.
  rewrite Forall_forall in Hall.
  destruct (Post.id q =? Post.id p')%string; [exact Hp' | apply Hall, Hq].
Qed.

Lemma likes_nonneg_find db postId post :
  likes_nonneg db -> find_post db postId = Some post -> 0 <= Post.likes post.
Proof.
  unfold likes_nonneg. rewrite Forall_forall. intros Hall Hfind.
  apply Hall. apply (find_post_some _ _ _ Hfind).
Qed.

(** Every request keeps the counters at or above 0: a new post starts at
    0, a like adds 1, an unlike takes the larger of 0 and one less. *)
Lemma likes_nonneg_serve (r : Request) (db : DB) :
  likes_nonneg db -> likes_nonneg (snd (serve r db)).
Proof.
  intros Hn. destruct r; unfold serve, with_body;
    try match goal with |- context [if ?v then _ else _] => destruct v end;
    try exact Hn.
  - unfold create_post. destruct (falsy _ || falsy _); [exact Hn|].
    destruct (find_post db _); [exact Hn|].
    unfold likes_nonneg. cbn [snd posts]. apply Forall_app. split; [exact Hn|].
    constructor; [cbn; lia | constructor].
  - unfold get_post. destruct (find_post db postId); exact Hn.
  - unfold update_post.
    destruct (find_post db postId) as [post|] eqn:Hpost; [|exact Hn].
    destruct (falsy _ || falsy _); [exact Hn|].
    cbn [snd]. destruct (_ || negb _); [|exact Hn].
    apply likes_nonneg_write_post; [exact Hn|].
    cbn [Post.likes]. eapply likes_nonneg_find; eassumption.
  - unfold delete_post. destruct (find_post db postId); [|exact Hn].
    unfold likes_nonneg in *. cbn [snd posts].
    rewrite Forall_forall in *. intros q Hq. apply filter_In in Hq.
    apply Hn. tauto.
  - unfold list_comments. destruct (find_post db postId); exact Hn.
  - unfold create_comment. destruct (find_post db postId); [|exact Hn].
    destruct (falsy _ || falsy _); [exact Hn|].
    destruct (existsb _ _); exact Hn.
  - unfold get_comment. destruct (find_comment _ _ _); exact Hn.
  - unfold update_comment. destruct (find_comment _ _ _); [|exact Hn].
    destruct (falsy _ || falsy _); [exact Hn|].
    cbn [snd]. destruct (_ || negb _); exact Hn.
  - unfold delete_comment. destruct (find_comment _ _ _); exact Hn.
  - unfold like_post, like_post_txn.
    destruct (find_post db postId) as [post|] eqn:Hpost; [|exact Hn].
    destruct (falsy _); [exact Hn|].
    destruct (find_like db postId _); [exact Hn|].
    destruct (find_post_some _ _ _ Hpost) as [_ Hid].
    rewrite Hid, Hpost. cbn [snd].
    apply (likes_nonneg_write_post db); [exact Hn|].
    rewrite set_likes_likes by reflexivity.
    pose proof (likes_nonneg_find _ _ _ Hn Hpost). lia.
  - unfold unlike_post.
    destruct (find_post db postId) as [post|] eqn:Hpost; [|exact Hn].
    destruct (falsy _); [exact Hn|].
    destruct (find_like db postId _); [|exact Hn].
    cbn [snd]. apply (likes_nonneg_write_post db); [exact Hn|].
    rewrite set_likes_likes by reflexivity. lia.
Qed.

End NonNegative.

(** C7. In every state the database can reach, the [likes] counter of
    every post is at least 0. *)
Theorem likes_never_negative (db : DB) :
  reachable db -> forall p, In p (posts db) -> 0 <= Post.likes p.
Proof.
  intros Hr.
  assert (Hn : likes_nonneg db).
  { induction Hr as [|r db _ IH]; [constructor|].
    apply likes_nonneg_serve, IH. }
  unfold likes_nonneg in Hn. rewrite Forall_forall in Hn. exact Hn.
Qed.

Section LikeRuns.

Lemma like_op_consistent postId db op :
  consistent db -> consistent (like_op postId db op).
Proof.
  intros Hc. destruct op; cbn [like_op].
  - apply consistent_like_post, Hc.
  - apply consistent_unlike_post, Hc.
Qed.

Lemma like_op_keeps_post postId db op x :
  find_post db x <> None -> find_post (like_op postId db op) x <> None.
Proof.
  intros Hx. destruct op; cbn [like_op].
  - unfold like_post, like_post_txn.
    destruct (find_post db postId) as [post|] eqn:Hpost; [|exact Hx].
    destruct (falsy _); [exact Hx|].
    destruct (find_like db postId _); [exact Hx|].
    destruct (find_post_some _ _ _ Hpost) as [_ Hid].
    rewrite Hid, Hpost. cbn [snd].
    apply (find_post_write_exists db). exact Hx.
  - unfold unlike_post.
    destruct (find_post db postId) as [post|] eqn:Hpost; [|exact Hx].
    destruct (falsy _); [exact Hx|].
    destruct (find_like db postId _); [|exact Hx].
    cbn [snd]. apply (find_post_write_exists db). exact Hx.
Qed.

Lemma like_ops_invariant postId ops db x :
  consistent db -> find_post db x <> None ->
  consistent (like_ops postId ops db)
  /\ find_post (like_ops postId ops db) x <> None.
Proof.
  unfold like_ops. revert db.
  induction ops as [|op ops IH]; intros db Hc Hx; cbn [fold_left]; [auto|].
  apply IH; [apply like_op_consistent | apply like_op_keeps_post]; assumption.
Qed.

End LikeRuns.

(** C2. Take a post as [create_post] makes it, in any state the database
    can reach: its counter is 0 and no like row references it.  After any
    run of like and unlike requests on it, whatever the usernames (so in
    particular distinct ones), the post is still stored and its [likes]
    equals the number of like rows of the post. *)
Theorem likes_is_cardinality (db : DB) (rnd : Entropy) (tc tu : datetime)
    (body : Schemas.NewPost) (post : Post.t) (db1 : DB) (ops : list LikeOp) :
  reachable db ->
  serve (CreatePost rnd tc tu body) db = (PostResponse 201 post, db1) ->
  Post.likes post = 0
  /\ likes_of db1 (Post.id post) = []
  /\ exists post',
      find_post (like_ops (Post.id post) ops db1) (Post.id post) = Some post'
      /\ Post.likes post'
         = Z.of_nat (length (likes_of (like_ops (Post.id post) ops db1)
                                      (Post.id post))).
Proof.
  intros Hr Hcreate.
  assert (Hc1 : consistent db1).
  { replace db1 with (snd (serve (CreatePost rnd tc tu body) db))
      by (rewrite Hcreate; reflexivity).
    apply consistent_serve, reachable_consistent, Hr. }
  assert (Hnew : Post.likes post = 0 /\ In post (posts db1)).
  { unfold serve, with_body, create_post in Hcreate.
    destruct (Schemas.valid_PostBase body); [|discriminate].
    destruct (falsy _ || falsy _); [discriminate|].
    destruct (find_post db _); [discriminate|].
    inversion Hcreate; subst. cbn [Post.likes posts].
    split; [reflexivity|]. apply in_app_iff. right. left. reflexivity. }
  destruct Hnew as [Hzero Hin].
  assert (Hempty : likes_of db1 (Post.id post) = []).
  { pose proof (likes_counted db1 Hc1 post Hin) as Hcount.
    destruct (likes_of db1 (Post.id post)); [reflexivity|].
    cbn [length] in Hcount. lia. }
  assert (Hx : find_post db1 (Post.id post) <> None).
  { intros Hnone. apply (find_post_none _ _ Hnone post Hin). reflexivity. }
  destruct (like_ops_invariant (Post.id post) ops db1 (Post.id post) Hc1 Hx)
    as [Hc2 Hx2].
  split; [exact Hzero|]. split; [exact Hempty|].
  destruct (find_post (like_ops (Post.id post) ops db1) (Post.id post))
    as [post'|] eqn:Hfind; [|congruence].
  exists post'. split; [reflexivity|].
  destruct (find_post_some _ _ _ Hfind) as [Hin' Hid'].
  rewrite <- Hid' at 2. apply (likes_counted _ Hc2 post' Hin').
Qed.

(** ** The properties at work on the small database *)

Lemma reachable_db_posted : reachable db_posted.
Proof. apply reachable_serve, reachable_init. Qed.

Lemma reachable_db_liked : reachable db_liked.
Proof. apply reachable_serve, reachable_db_posted. Qed.

Lemma reachable_db_commented : reachable db_commented.
Proof. apply reachable_serve, reachable_db_liked. Qed.

Lemma reachable_db_two_posts : reachable db_two_posts.
Proof. apply reachable_serve, reachable_db_commented. Qed.

(** Carol likes alice's post twice: one row, one count. *)
Lemma like_post_idempotent_witness :
  exists p1 db1,
    like_post 500 501 "p_aaaaaaaa" (Schemas.mkLikeRequest "carol") db_two_posts
    = (PostResponse 200 p1, db1)
    /\ find_post db1 "p_aaaaaaaa" = Some p1
    /\ like_post 600 601 "p_aaaaaaaa" (Schemas.mkLikeRequest "carol") db1
       = (PostResponse 200 p1, db1).
Proof.
  exact (proj1 (like_post_idempotent 500 501 600 601 "p_aaaaaaaa"
                  (Schemas.mkLikeRequest "carol") db_two_posts
                  (Post.mk "p_aaaaaaaa" "alice" "hello" 100 200 1)
                  eq_refl eq_refl)).
Defined.

(** Bob likes, carol likes, bob unlikes, bob unlikes again. *)
Lemma likes_is_cardinality_witness :
  exists post',
    find_post (like_ops "p_aaaaaaaa"
                 [DoLike 1 1 "bob"; DoLike 2 2 "carol";
                  DoUnlike 3 "bob"; DoUnlike 4 "bob"] db_posted)
              "p_aaaaaaaa" = Some post'
    /\ Post.likes post'
       = Z.of_nat (length (likes_of
                             (like_ops "p_aaaaaaaa"
                                [DoLike 1 1 "bob"; DoLike 2 2 "carol";
                                 DoUnlike 3 "bob"; DoUnlike 4 "bob"] db_posted)
                             "p_aaaaaaaa")).
Proof.
  exact (proj2 (proj2 (likes_is_cardinality empty_db rnd_a 100 100
                         (Schemas.mkPostBase "alice" "hello") alice_post
                         db_posted
                         [DoLike 1 1 "bob"; DoLike 2 2 "carol";
                          DoUnlike 3 "bob"; DoUnlike 4 "bob"]
                         reachable_init eq_refl))).
Defined.

(** Dave never liked alice's post. *)
Lemma unlike_post_never_liked_witness :
  unlike_post 500 "p_aaaaaaaa" (Schemas.mkLikeRequest "dave") db_two_posts
  = (PostResponse 200 (Post.mk "p_aaaaaaaa" "alice" "hello" 100 200 1),
     db_two_posts).
Proof.
  apply (unlike_post_never_liked 500 "p_aaaaaaaa"
           (Schemas.mkLikeRequest "dave") db_two_posts).
  - reflexivity.
  - reflexivity.
  - intros l [<-|[]] [_ H]. discriminate H.
Defined.

(** C4, the claim as stated fails: a create-post request with an empty
    [username] is answered 422 by the schema validation, not 400 with the
    "BAD_REQUEST" envelope. *)
Lemma create_post_empty_username_422 :
  let body := Schemas.mkPostBase "" "hello" in
  let r := fst (serve (CreatePost rnd_a 0 0 body) empty_db) in
  Schemas.username body = ""
  /\ r = RequestValidationError
  /\ status_of r = 422
  /\ r <> HTTPException 400 "BAD_REQUEST" "Invalid input for required fields.".
Proof.
  cbv zeta. repeat split; try reflexivity. discriminate.
Qed.

Lemma create_post_empty_field_witness :
  serve (CreatePost rnd_a 0 0 (Schemas.mkPostBase "alice" "")) db_posted
  = (RequestValidationError, db_posted)
  /\ create_post rnd_a 0 0 (Schemas.mkPostBase "alice" "") db_posted
     = (HTTPException 400 "BAD_REQUEST" "Invalid input for required fields.",
        db_posted).
Proof.
  apply (create_post_empty_field rnd_a 0 0 (Schemas.mkPostBase "alice" "")
           db_posted).
  right. reflexivity.
Defined.

(** Alice's post goes, and carol's comment and bob's like with it. *)
Lemma delete_post_cascades_witness :
  exists db',
    delete_post "p_aaaaaaaa" db_two_posts = (EmptyResponse 204, db')
    /\ get_post "p_aaaaaaaa" db'
       = (HTTPException 404 "NOT_FOUND" "Post not found", db')
    /\ comments_of db' "p_aaaaaaaa" = []
    /\ likes_of db' "p_aaaaaaaa" = []
    /\ (forall c, In c (comments db_two_posts) ->
                  Comment.postId c = "p_aaaaaaaa" ->
                  ~ In c (comments db')
                  /\ get_comment "p_aaaaaaaa" (Comment.id c) db'
                     = (HTTPException 404 "NOT_FOUND" "Comment not found", db'))
    /\ (forall l, In l (likes db_two_posts) ->
                  Like.postId l = "p_aaaaaaaa" -> ~ In l (likes db')).
Proof.
  apply (delete_post_cascades "p_aaaaaaaa" db_two_posts
           (Post.mk "p_aaaaaaaa" "alice" "hello" 100 200 1)).
  reflexivity.
Defined.

(** C6, the claim as stated fails: [updatedAt] is what the clock reads at
    the write.  A PATCH served after the wall clock was set back below the
    stored [updatedAt] succeeds and leaves [updatedAt] earlier than it
    was, for a post and for a comment alike. *)
Lemma patch_updatedAt_not_later :
  find_post db_posted "p_aaaaaaaa" = Some alice_post
  /\ (exists post' db',
         serve (UpdatePost 50 51 "p_aaaaaaaa"
                           (Schemas.mkPostBase "alice" "hello again")) db_posted
         = (PostResponse 200 post', db')
         /\ Post.updatedAt post' = 50
         /\ ~ Post.updatedAt alice_post < Post.updatedAt post')
  /\ find_comment db_commented "p_aaaaaaaa" "c_bcdefghi"
     = Some (Comment.mk "c_bcdefghi" "p_aaaaaaaa" "carol" "nice" 300 300)
  /\ (exists comment' db',
         serve (UpdateComment 250 251 "p_aaaaaaaa" "c_bcdefghi"
                              (Schemas.mkCommentBase "carol" "very nice"))
               db_commented
         = (CommentResponse 200 comment', db')
         /\ Comment.updatedAt comment' = 250
         /\ ~ 300 < Comment.updatedAt comment').
Proof.
  split; [reflexivity|]. split; [|split; [reflexivity|]].
  - eexists. eexists. split; [reflexivity|]. split; [reflexivity|]. cbn. lia.
  - eexists. eexists. split; [reflexivity|]. split; [reflexivity|]. cbn. lia.
Qed.

(** Alice edits her post while the clock still reads what [updatedAt]
    holds, 200: the hook stamps the row with its own reading, 201.  Carol
    edits her comment at reading 700. *)
Lemma patch_stamps_updatedAt_witness :
  (exists post' db',
      serve (UpdatePost 200 201 "p_aaaaaaaa"
                        (Schemas.mkPostBase "alice" "hello again")) db_two_posts
      = (PostResponse 200 post', db')
      /\ find_post db' "p_aaaaaaaa" = Some post'
      /\ Post.createdAt post' = 100
      /\ Post.updatedAt post' = 201)
  /\ (exists comment' db',
         serve (UpdateComment 700 701 "p_aaaaaaaa" "c_bcdefghi"
                              (Schemas.mkCommentBase "carol" "very nice"))
               db_two_posts
         = (CommentResponse 200 comment', db')
         /\ find_comment db' "p_aaaaaaaa" "c_bcdefghi" = Some comment'
         /\ Comment.createdAt comment' = 300
         /\ Comment.updatedAt comment' = 700
         /\ 300 < Comment.updatedAt comment').
Proof.
  split.
  - destruct (proj1 (patch_stamps_updatedAt 200 201 "p_aaaaaaaa" "c_bcdefghi"
                       (Schemas.mkPostBase "alice" "hello again")
                       (Schemas.mkCommentBase "carol" "very nice")
                       db_two_posts)
                (Post.mk "p_aaaaaaaa" "alice" "hello" 100 200 1)
                eq_refl eq_refl)
      as (post' & db' & Hrun & Hfind & Hcreated & Hupdated & _).
    exists post', db'.
    exact (conj Hrun (conj Hfind (conj Hcreated Hupdated))).
  - assert (Hlater : 300 < 700) by lia.
    destruct (proj2 (patch_stamps_updatedAt 700 701 "p_aaaaaaaa" "c_bcdefghi"
                       (Schemas.mkPostBase "alice" "hello again")
                       (Schemas.mkCommentBase "carol" "very nice")
                       db_two_posts)
                (Comment.mk "c_bcdefghi" "p_aaaaaaaa" "carol" "nice" 300 300)
                eq_refl eq_refl)
      as (comment' & db' & Hrun & Hfind & Hcreated & Hupdated & _ & Hstrict).
    exists comment', db'.
    exact (conj Hrun (conj Hfind (conj Hcreated
             (conj Hupdated (Hstrict Hlater))))).
Defined.

Lemma likes_never_negative_witness :
  0 <= Post.likes (Post.mk "p_aaaaaaaa" "alice" "hello" 100 200 1).
Proof.
  apply (likes_never_negative db_two_posts reachable_db_two_posts).
  left. reflexivity.
Defined.

(** Carol's comment is on alice's post: under dave's post it is not found. *)
Lemma comment_of_other_post_witness :
  get_comment "p_bcdefghi" "c_bcdefghi" db_two_posts
  = (HTTPException 404 "NOT_FOUND" "Comment not found", db_two_posts)
  /\ update_comment 700 701 "p_bcdefghi" "c_bcdefghi"
                    (Schemas.mkCommentBase "carol" "very nice") db_two_posts
     = (HTTPException 404 "NOT_FOUND" "Comment not found", db_two_posts)
  /\ delete_comment "p_bcdefghi" "c_bcdefghi" db_two_posts
     = (HTTPException 404 "NOT_FOUND" "Comment not found", db_two_posts)
  /\ serve (UpdateComment 700 701 "p_bcdefghi" "c_bcdefghi"
                          (Schemas.mkCommentBase "carol" "very nice"))
           db_two_posts
     = (HTTPException 404 "NOT_FOUND" "Comment not found", db_two_posts).
Proof.
  assert (Hother : forall c, In c (comments db_two_posts) ->
                             Comment.id c = "c_bcdefghi" ->
                             Comment.postId c <> "p_bcdefghi")
    by (intros c [<-|[]] _; discriminate).
  destruct (comment_of_other_post 700 701 "p_bcdefghi" "c_bcdefghi"
              (Schemas.mkCommentBase "carol" "very nice") db_two_posts Hother)
    as (Hget & Hupdate & Hdelete & Hroute).
  exact (conj Hget (conj Hupdate (conj Hdelete (Hroute eq_refl)))).
Defined.

(** Carol likes alice's post; bob takes his like back. *)
Lemma like_unlike_frame_witness :
  (exists post' db',
      like_post 500 501 "p_aaaaaaaa" (Schemas.mkLikeRequest "carol") db_two_posts
      = (PostResponse 200 post', db')
      /\ post' = Post.mk "p_aaaaaaaa" "alice" "hello" 100 500 2)
  /\ (exists post' db',
         unlike_post 500 "p_aaaaaaaa" (Schemas.mkLikeRequest "bob") db_two_posts
         = (PostResponse 200 post', db')
         /\ post' = Post.mk "p_aaaaaaaa" "alice" "hello" 100 500 0).
Proof.
  pose proof (like_unlike_frame 500 501 "p_aaaaaaaa"
                (Schemas.mkLikeRequest "carol") db_two_posts
                (Post.mk "p_aaaaaaaa" "alice" "hello" 100 200 1)
                eq_refl eq_refl) as [Hlike _].
  pose proof (like_unlike_frame 500 501 "p_aaaaaaaa"
                (Schemas.mkLikeRequest "bob") db_two_posts
                (Post.mk "p_aaaaaaaa" "alice" "hello" 100 200 1)
                eq_refl eq_refl) as [_ Hunlike].
  split.
  - destruct (Hlike eq_refl) as (post' & db' & Hrun & _).
    exists post', db'. split; [exact Hrun|].
    cbv in Hrun. inversion Hrun. reflexivity.
  - destruct (Hunlike (Like.mk 1 "p_aaaaaaaa" "bob" 201) eq_refl)
      as (post' & db' & Hrun & _).
    exists post', db'. split; [exact Hrun|].
    cbv in Hrun. inversion Hrun. reflexivity.
Defined.

(** * Further properties of the handlers *)

(** ** Keys, references and response models *)

Section Integrity.

Lemma falsy_min_length (s : string) :
  falsy s = false <-> Schemas.min_length 1 s = true.
Proof. destruct s; cbn; split; intros H; try reflexivity; discriminate. Qed.

Lemma write_post_ids db p' :
  map Post.id (posts (write_post p' db)) = map Post.id (posts db).
Proof.
  unfold write_post. cbn [posts]. rewrite map_map. apply map_ext_in.
  intros q _. destruct (Post.id q =? Post.id p')%string eqn:E; [|reflexivity].
  apply String.eqb_eq in E. congruence.
Qed.

Lemma find_post_fresh db x :
  find_post db x = None -> ~ In x (map Post.id (posts db)).
Proof.
  intros Hnone Hin. apply in_map_iff in Hin. destruct Hin as [q [Hq Hqin]].
  exact (find_post_none _ _ Hnone q Hqin Hq).
Qed.

Lemma response_model_Post_id p :
  response_model_Post p = true -> Schemas.id_pattern (Post.id p) = true.
Proof.
  unfold response_model_Post. rewrite !andb_true_iff. tauto.
Qed.

(** An UPDATE of a post that keeps its id and leaves a valid row keeps
    the integrity of the database. *)
Lemma integrity_write_post db p p' :
  integrity db ->
  find_post db (Post.id p') = Some p ->
  response_model_Post p' = true ->
  integrity (write_post p' db).
Proof.
  intros [H1 H2 H3 H4 H5 H6] Hfind Hvalid. constructor.
  - rewrite write_post_ids. exact H1.
  - exact H2.
  - intros c Hc. apply find_post_write_exists. apply H3. exact Hc.
  - exact H4.
  - intros q Hq. apply write_post_In in Hq.
    destruct Hq as [->|[Hq _]]; [exact Hvalid | apply H5, Hq].
  - exact H6.
Qed.

Lemma integrity_likes ps cs ls ls' :
  integrity (mkDB ps cs ls) ->
  NoDup (map like_key ls') ->
  integrity (mkDB ps cs ls').
Proof.
  intros [H1 H2 H3 H4 H5 H6] Hkeys. constructor; assumption.
Qed.

Lemma set_likes_valid now loaded n row :
  response_model_Post row = true -> 0 <= n ->
  response_model_Post (set_likes now loaded n row) = true.
Proof.
  intros Hrow Hn. unfold set_likes. destruct (n =? loaded); [exact Hrow|].
  unfold response_model_Post in *.
  cbn [Post.username Post.content Post.id Post.likes].
  rewrite !andb_true_iff in *. repeat split; try tauto.
  apply Z.leb_le. exact Hn.
Qed.

Lemma integrity_create_post rnd tc tu body db :
  integrity db -> integrity (snd (create_post rnd tc tu body db)).
Proof.
  intros Hi. unfold create_post.
  destruct (falsy (Schemas.username body)) eqn:Hu; [exact Hi|].
  destruct (falsy (Schemas.content body)) eqn:Hc; [exact Hi|].
  cbn [orb Post.id].
  destruct (find_post db (generate_id "p" rnd)) eqn:Hfresh; [exact Hi|].
  destruct Hi as [H1 H2 H3 H4 H5 H6]. cbn [snd].
  constructor; cbn [posts comments likes]; try assumption.
  - rewrite map_app. cbn [map Post.id]. apply NoDup_snoc; [exact H1|].
    apply find_post_fresh. exact Hfresh.
  - intros c Hc'. destruct db as [ps cs ls].
    apply find_post_app_exists. apply H3. exact Hc'.
  - intros q Hq. apply in_app_iff in Hq.
    destruct Hq as [Hq|[<-|[]]]; [apply H5, Hq|].
    unfold response_model_Post.
    cbn [Post.username Post.content Post.id Post.likes].
    apply falsy_min_length in Hu. apply falsy_min_length in Hc.
    rewrite Hu, Hc. cbn [andb].
    rewrite (id_pattern_generate_id "p"%char rnd eq_refl). reflexivity.
Qed.

Lemma integrity_update_post now t_flush postId body db :
  integrity db -> integrity (snd (update_post now t_flush postId body db)).
Proof.
  intros Hi. unfold update_post.
  destruct (find_post db postId) as [post|] eqn:Hpost; [|exact Hi].
  destruct (falsy (Schemas.username body)) eqn:Hu; [exact Hi|].
  destruct (falsy (Schemas.content body)) eqn:Hc; [exact Hi|].
  destruct (find_post_some _ _ _ Hpost) as [Hin Hid]. subst postId.
  cbn [orb snd]. destruct (_ || negb _); [|exact Hi].
  apply (integrity_write_post db post); [exact Hi | exact Hpost |].
  pose proof (posts_valid db Hi post Hin) as Hv.
  unfold response_model_Post in *.
  cbn [Post.username Post.content Post.id Post.likes].
  apply falsy_min_length in Hu. apply falsy_min_length in Hc.
  rewrite !andb_true_iff in *. tauto.
Qed.

Lemma integrity_delete_post postId db :
  integrity db -> integrity (snd (delete_post postId db)).
Proof.
  intros Hi. unfold delete_post.
  destruct (find_post db postId) as [post|] eqn:Hpost; [|exact Hi].
  destruct Hi as [H1 H2 H3 H4 H5 H6]. cbn [snd].
  constructor; cbn [posts comments likes].
  - apply NoDup_map_filter, H1.
  - apply NoDup_map_filter, H2.
  - intros c Hc. apply filter_In in Hc. destruct Hc as [Hc Hne].
    apply negb_true_iff in Hne. apply String.eqb_neq in Hne.
    unfold find_post at 1. cbn [posts].
    rewrite find_post_delete_other; [apply H3, Hc | exact Hne].
  - apply NoDup_map_filter, H4.
  - intros q Hq. apply filter_In in Hq. apply H5. tauto.
  - intros c Hc. apply filter_In in Hc. apply H6. tauto.
Qed.

End Integrity.

Section IntegritySteps.

Lemma find_comment_some db postId commentId c :
  find_comment db postId commentId = Some c ->
  In c (comments db) /\ Comment.id c = commentId /\ Comment.postId c = postId.
Proof.
  unfold find_comment. intros H. apply find_some in H.
  destruct H as [Hin Heq]. apply andb_true_iff in Heq. destruct Heq as [H1 H2].
  apply String.eqb_eq in H1. apply String.eqb_eq in H2. auto.
Qed.

Lemma find_like_none db postId username :
  find_like db postId username = None ->
  ~ In (postId, username) (map like_key (likes db)).
Proof.
  unfold find_like. intros Hnone Hin. apply in_map_iff in Hin.
  destruct Hin as [l [Hkey Hl]]. apply (find_none _ _ Hnone) in Hl.
  unfold like_key in Hkey. inversion Hkey; subst.
  rewrite !String.eqb_refl in Hl. discriminate.
Qed.

Lemma write_comment_ids db c' :
  map Comment.id (comments (write_comment c' db)) = map Comment.id (comments db).
Proof.
  unfold write_comment. cbn [comments]. rewrite map_map. apply map_ext_in.
  intros q _. destruct (Comment.id q =? Comment.id c')%string eqn:E; [|reflexivity].
  apply String.eqb_eq in E. congruence.
Qed.

Lemma write_comment_In db c' q :
  In q (comments (write_comment c' db)) ->
  q = c' \/ (In q (comments db) /\ Comment.id q <> Comment.id c').
Proof.
  unfold write_comment. cbn [comments]. rewrite in_map_iff.
  intros [x [Hx Hin]].
  destruct (Comment.id x =? Comment.id c')%string eqn:E.
  - left. congruence.
  - right. subst q. split; [exact Hin|]. apply String.eqb_neq. exact E.
Qed.

Lemma integrity_create_comment rnd tc tu postId body db :
  integrity db -> integrity (snd (create_comment rnd tc tu postId body db)).
Proof.
  intros Hi. unfold create_comment.
  destruct (find_post db postId) as [post|] eqn:Hpost; [|exact Hi].
  destruct (falsy (Schemas.c_username body)) eqn:Hu; [exact Hi|].
  destruct (falsy (Schemas.c_content body)) eqn:Hc; [exact Hi|].
  cbn [orb Comment.id].
  destruct (existsb _ (comments db)) eqn:Hex; [exact Hi|].
  destruct (find_post_some _ _ _ Hpost) as [Hin Hid].
  destruct Hi as [H1 H2 H3 H4 H5 H6]. cbn [snd].
  constructor; cbn [posts comments likes]; try assumption.
  - rewrite map_app. cbn [map Comment.id]. apply NoDup_snoc; [exact H2|].
    intros Hdup. apply in_map_iff in Hdup. destruct Hdup as [c [Hcid Hcin]].
    assert (Hyes : existsb (fun c0 => (Comment.id c0 =? generate_id "c" rnd)%string)
                           (comments db) = true).
    { apply existsb_exists. exists c. split; [exact Hcin|].
      apply String.eqb_eq. exact Hcid. }
    congruence.
  - intros c Hc'. apply in_app_iff in Hc'.
    change (find_post db (Comment.postId c) <> None).
    destruct Hc' as [Hc'|[<-|[]]]; [apply H3, Hc'|].
    cbn [Comment.postId]. congruence.
  - intros c Hc'. apply in_app_iff in Hc'.
    destruct Hc' as [Hc'|[<-|[]]]; [apply H6, Hc'|].
    unfold response_model_Comment.
    cbn [Comment.username Comment.content Comment.id Comment.postId].
    apply falsy_min_length in Hu. apply falsy_min_length in Hc.
    rewrite Hu, Hc, (id_pattern_generate_id "c"%char rnd eq_refl).
    cbn [andb]. rewrite <- Hid. apply response_model_Post_id. apply H5, Hin.
Qed.

Lemma integrity_update_comment now t_flush postId commentId body db :
  integrity db ->
  integrity (snd (update_comment now t_flush postId commentId body db)).
Proof.
  intros Hi. unfold update_comment.
  destruct (find_comment db postId commentId) as [comment|] eqn:Hfind;
    [|exact Hi].
  destruct (falsy (Schemas.c_username body)) eqn:Hu; [exact Hi|].
  destruct (falsy (Schemas.c_content body)) eqn:Hc; [exact Hi|].
  destruct (find_comment_some _ _ _ _ Hfind) as [Hin _].
  cbn [orb snd]. destruct (_ || negb _); [|exact Hi].
  destruct Hi as [H1 H2 H3 H4 H5 H6].
  set (comment' := Comment.mk _ _ _ _ _ _).
  constructor; try assumption.
  - rewrite write_comment_ids. exact H2.
  - intros c Hc'. apply write_comment_In in Hc'.
    change (find_post db (Comment.postId c) <> None).
    destruct Hc' as [->|[Hc' _]]; [|apply H3, Hc'].
    cbn [comment' Comment.postId]. apply H3, Hin.
  - intros c Hc'. apply write_comment_In in Hc'.
    destruct Hc' as [->|[Hc' _]]; [|apply H6, Hc'].
    pose proof (H6 comment Hin) as Hv.
    unfold response_model_Comment in *.
    cbn [comment' Comment.username Comment.content Comment.id Comment.postId].
    apply falsy_min_length in Hu. apply falsy_min_length in Hc.
    rewrite !andb_true_iff in *. tauto.
Qed.

Lemma integrity_delete_comment postId commentId db :
  integrity db -> integrity (snd (delete_comment postId commentId db)).
Proof.
  intros Hi. unfold delete_comment.
  destruct (find_comment db postId commentId) as [comment|]; [|exact Hi].
  destruct Hi as [H1 H2 H3 H4 H5 H6]. cbn [snd].
  constructor; cbn [posts comments likes]; try assumption.
  - apply NoDup_map_filter, H2.
  - intros c Hc. apply filter_In in Hc.
    change (find_post db (Comment.postId c) <> None). apply H3. tauto.
  - intros c Hc. apply filter_In in Hc. apply H6. tauto.
Qed.

Lemma response_model_Post_likes p :
  response_model_Post p = true -> 0 <= Post.likes p.
Proof.
  unfold response_model_Post. rewrite !andb_true_iff.
  intros [_ H]. apply Z.leb_le. exact H.
Qed.

Lemma integrity_like_post tp tl postId req db :
  integrity db -> integrity (snd (like_post tp tl postId req db)).
Proof.
  intros Hi. unfold like_post, like_post_txn.
  destruct (find_post db postId) as [post|] eqn:Hpost; [|exact Hi].
  destruct (falsy _); [exact Hi|].
  destruct (find_like db postId _) eqn:Hlike; [exact Hi|].
  destruct (find_post_some _ _ _ Hpost) as [Hin Hid].
  rewrite Hid, Hpost. cbn [snd].
  set (post' := set_likes tp _ _ post).
  apply (integrity_likes _ _ (likes db)).
  - apply (integrity_write_post db post post' Hi).
    + unfold post'. rewrite set_likes_id, Hid. exact Hpost.
    + pose proof (posts_valid db Hi post Hin) as Hv.
      apply set_likes_valid; [exact Hv|].
      apply response_model_Post_likes in Hv. lia.
  - rewrite map_app. cbn [map]. apply NoDup_snoc.
    + apply (like_keys_unique db Hi).
    + apply find_like_none. exact Hlike.
Qed.

Lemma integrity_unlike_post now postId req db :
  integrity db -> integrity (snd (unlike_post now postId req db)).
Proof.
  intros Hi. unfold unlike_post.
  destruct (find_post db postId) as [post|] eqn:Hpost; [|exact Hi].
  destruct (falsy _); [exact Hi|].
  destruct (find_like db postId _) as [like|]; [|exact Hi].
  destruct (find_post_some _ _ _ Hpost) as [Hin Hid].
  cbn [snd]. set (post' := set_likes now _ _ post).
  apply (integrity_likes _ _ (likes db)).
  - apply (integrity_write_post db post post' Hi).
    + unfold post'. rewrite set_likes_id, Hid. exact Hpost.
    + apply set_likes_valid; [apply (posts_valid db Hi post Hin) | lia].
  - apply NoDup_map_filter. apply (like_keys_unique db Hi).
Qed.

(** Every request keeps the integrity of the database. *)
Lemma integrity_serve (r : Request) (db : DB) :
  integrity db -> integrity (snd (serve r db)).
Proof.
  intros Hi. destruct r; unfold serve, with_body;
    try match goal with |- context [if ?v then _ else _] => destruct v end;
    try exact Hi.
  - apply integrity_create_post, Hi.
  - unfold get_post. destruct (find_post db postId); exact Hi.
  - apply integrity_update_post, Hi.
  - apply integrity_delete_post, Hi.
  - unfold list_comments. destruct (find_post db postId); exact Hi.
  - apply integrity_create_comment, Hi.
  - unfold get_comment. destruct (find_comment _ _ _); exact Hi.
  - apply integrity_update_comment, Hi.
  - apply integrity_delete_comment, Hi.
  - apply integrity_like_post, Hi.
  - apply integrity_unlike_post, Hi.
Qed.

Lemma reachable_integrity (db : DB) : reachable db -> integrity db.
Proof.
  induction 1 as [|r db _ IH]; [|apply integrity_serve, IH].
  constructor; cbn; try constructor; intros ? [].
Qed.

End IntegritySteps.

(** X1. Primary keys.  In every state the database can reach no two posts
    share an id and no two comments share an id: a generated id that is
    taken makes the insert fail and nothing else writes an id. *)
Theorem ids_are_unique (db : DB) :
  reachable db ->
  NoDup (map Post.id (posts db)) /\ NoDup (map Comment.id (comments db)).
Proof.
  intros Hr. apply reachable_integrity in Hr.
  split.
  - apply (post_ids_unique db Hr).
  - apply (comment_ids_unique db Hr).
Qed.

Lemma references_serve (r : Request) (db : DB) :
  references_ok db -> references_ok (snd (serve r db)).
Proof.
  intros [Hc Hl]. destruct r; unfold serve, with_body;
    try match goal with |- context [if ?v then _ else _] => destruct v end;
    try (split; assumption).
  - (* create_post *)
    unfold create_post. destruct (falsy _ || falsy _); [split; assumption|].
    destruct (find_post db _); [split; assumption|].
    cbn [snd]. destruct db as [ps cs ls]. split.
    + intros c Hin. apply find_post_app_exists. apply Hc, Hin.
    + intros l Hin. apply find_post_app_exists. apply Hl, Hin.
  - unfold get_post. destruct (find_post db postId); split; assumption.
  - (* update_post *)
    unfold update_post. destruct (find_post db postId); [|split; assumption].
    destruct (falsy _ || falsy _); [split; assumption|].
    cbn [snd]. destruct (_ || negb _); [|split; assumption]. split.
    + intros c Hin. apply find_post_write_exists. apply Hc, Hin.
    + intros l Hin. apply find_post_write_exists. apply Hl, Hin.
  - (* delete_post *)
    unfold delete_post. destruct (find_post db postId); [|split; assumption].
    cbn [snd]. split.
    + intros c Hin. cbn [comments] in Hin. apply filter_In in Hin.
      destruct Hin as [Hin Hne].
      apply negb_true_iff in Hne. apply String.eqb_neq in Hne.
      unfold find_post at 1. cbn [posts].
      rewrite find_post_delete_other; [apply Hc, Hin | exact Hne].
    + intros l Hin. cbn [likes] in Hin. apply filter_In in Hin.
      destruct Hin as [Hin Hne].
      apply negb_true_iff in Hne. apply String.eqb_neq in Hne.
      unfold find_post at 1. cbn [posts].
      rewrite find_post_delete_other; [apply Hl, Hin | exact Hne].
  - unfold list_comments. destruct (find_post db postId); split; assumption.
  - (* create_comment *)
    unfold create_comment.
    destruct (find_post db postId) eqn:Hpost; [|split; assumption].
    destruct (falsy _ || falsy _); [split; assumption|].
    destruct (existsb _ _); [split; assumption|].
    cbn [snd]. split; [|exact Hl].
    intros c Hin. cbn [comments] in Hin. apply in_app_iff in Hin.
    change (find_post db (Comment.postId c) <> None).
    destruct Hin as [Hin|[<-|[]]]; [apply Hc, Hin|].
    cbn [Comment.postId]. congruence.
  - unfold get_comment. destruct (find_comment _ _ _); split; assumption.
  - (* update_comment *)
    unfold update_comment.
    destruct (find_comment db postId commentId) as [comment|] eqn:Hfind;
      [|split; assumption].
    destruct (falsy _ || falsy _); [split; assumption|].
    cbn [snd]. destruct (_ || negb _); [|split; assumption].
    split; [|exact Hl].
    intros c Hin. unfold write_comment in Hin. cbn [comments] in Hin.
    apply in_map_iff in Hin. destruct Hin as [x [Hx Hin]].
    change (find_post db (Comment.postId c) <> None).
    destruct (Comment.id x =? _)%string; subst c; [|apply Hc, Hin].
    cbn [Comment.postId]. apply Hc.
    unfold find_comment in Hfind. apply find_some in Hfind. tauto.
  - (* delete_comment *)
    unfold delete_comment. destruct (find_comment _ _ _); [|split; assumption].
    cbn [snd]. split; [|exact Hl].
    intros c Hin. cbn [comments] in Hin. apply filter_In in Hin.
    change (find_post db (Comment.postId c) <> None). apply Hc. tauto.
  - (* like_post *)
    unfold like_post, like_post_txn.
    destruct (find_post db postId) as [post|] eqn:Hpost; [|split; assumption].
    destruct (falsy _); [split; assumption|].
    destruct (find_like db postId _); [split; assumption|].
    destruct (find_post_some _ _ _ Hpost) as [_ Hid].
    rewrite Hid, Hpost. cbn [snd].
    set (post' := set_likes _ _ _ post). split.
    + intros c Hin. change (find_post (write_post post' db) (Comment.postId c)
                            <> None).
      apply find_post_write_exists. apply Hc, Hin.
    + intros l Hin. cbn [likes] in Hin. apply in_app_iff in Hin.
      change (find_post (write_post post' db) (Like.postId l) <> None).
      apply find_post_write_exists.
      destruct Hin as [Hin|[<-|[]]]; [apply Hl, Hin|].
      cbn [Like.postId]. congruence.
  - (* unlike_post *)
    unfold unlike_post.
    destruct (find_post db postId) as [post|]; [|split; assumption].
    destruct (falsy _); [split; assumption|].
    destruct (find_like db postId _); [|split; assumption].
    cbn [snd]. set (post' := set_likes _ _ _ post). split.
    + intros c Hin. change (find_post (write_post post' db) (Comment.postId c)
                            <> None).
      apply find_post_write_exists. apply Hc, Hin.
    + intros l Hin. cbn [likes] in Hin. apply filter_In in Hin.
      change (find_post (write_post post' db) (Like.postId l) <> None).
      apply find_post_write_exists. apply Hl. tauto.
Qed.

(** X2. References, for requests served one after another.  From a
    database in which every comment and every like row belongs to a
    stored post (the empty database is one), any list of requests, each
    served to its end before the next starts, leads to a database in
    which they still do: both kinds of row are created only after the
    lookup of the post succeeded, and [delete_post] takes them with the
    post.  Requests that overlap are not covered. *)
Theorem rows_reference_a_post (rs : list Request) (db : DB) :
  references_ok db ->
  (forall c, In c (comments (serve_all rs db)) ->
             exists p, find_post (serve_all rs db) (Comment.postId c) = Some p)
  /\ (forall l, In l (likes (serve_all rs db)) ->
                exists p, find_post (serve_all rs db) (Like.postId l) = Some p).
Proof.
  intros Hok.
  assert (Hall : references_ok (serve_all rs db)).
  { unfold serve_all. revert db Hok.
    induction rs as [|r rs IH]; intros db Hok; cbn [fold_left]; [exact Hok|].
    apply IH. apply references_serve. exact Hok. }
  destruct Hall as [Hc Hl]. split.
  - intros c Hin. specialize (Hc c Hin).
    destruct (find_post _ (Comment.postId c)) as [p|]; [|congruence].
    exists p. reflexivity.
  - intros l Hin. specialize (Hl l Hin).
    destruct (find_post _ (Like.postId l)) as [p|]; [|congruence].
    exists p. reflexivity.
Qed.

(** X3. The unique constraint.  In every state the database can reach
    there is at most one like row for a post and a username: two like
    rows with the same [postId] and [username] are the same row. *)
Theorem one_like_per_user (db : DB) :
  reachable db ->
  NoDup (map like_key (likes db))
  /\ (forall l1 l2, In l1 (likes db) -> In l2 (likes db) ->
                    Like.postId l1 = Like.postId l2 ->
                    Like.username l1 = Like.username l2 ->
                    Like.id l1 = Like.id l2).
Proof.
  intros Hr.
  pose proof (like_keys_unique db (reachable_integrity db Hr)) as Hkeys.
  split; [exact Hkeys|].
  intros l1 l2 H1 H2 Hp Hu.
  assert (Hkey : like_key l1 = like_key l2)
    by (unfold like_key; congruence).
  clear Hp Hu Hr. revert Hkeys H1 H2.
  induction (likes db) as [|x xs IH]; cbn [map In]; intros Hnd H1 H2;
    [destruct H1|].
  inversion Hnd as [|k ks Hnotin Hrest]; subst.
  destruct H1 as [->|H1]; destruct H2 as [->|H2].
  - reflexivity.
  - exfalso. apply Hnotin. rewrite Hkey. apply in_map, H2.
  - exfalso. apply Hnotin. rewrite <- Hkey. apply in_map, H1.
  - apply IH; assumption.
Qed.

(** X4. Response models.  In every state the database can reach every
    stored post and comment passes the response model it is returned
    through: non-empty [username] and [content], identifiers of the
    pattern, [likes] at least 0. *)
Theorem rows_pass_response_model (db : DB) :
  reachable db ->
  (forall p, In p (posts db) -> response_model_Post p = true)
  /\ (forall c, In c (comments db) -> response_model_Comment c = true).
Proof.
  intros Hr. apply reachable_integrity in Hr.
  split.
  - apply (posts_valid db Hr).
  - apply (comments_valid db Hr).
Qed.

(** ** Create, read, update and delete *)

Section Crud.

Lemma find_post_appended ps cs ls p :
  find_post (mkDB ps cs ls) (Post.id p) = None ->
  find_post (mkDB (ps ++ [p]) cs ls) (Post.id p) = Some p.
Proof.
  unfold find_post. cbn [posts].
  induction ps as [|q qs IH]; cbn [app find].
  - intros _. rewrite String.eqb_refl. reflexivity.
  - destruct (Post.id q =? Post.id p)%string; [discriminate | exact IH].
Qed.

Lemma find_post_appended_other ps cs ls p x :
  x <> Post.id p ->
  find_post (mkDB (ps ++ [p]) cs ls) x = find_post (mkDB ps cs ls) x.
Proof.
  intros Hne. unfold find_post. cbn [posts].
  induction ps as [|q qs IH]; cbn [app find].
  - assert (E : (Post.id p =? x)%string = false)
      by (apply String.eqb_neq; congruence).
    rewrite E. reflexivity.
  - destruct (Post.id q =? x)%string; [reflexivity | exact IH].
Qed.

Lemma find_comment_appended ps cs ls c :
  existsb (fun c0 => (Comment.id c0 =? Comment.id c)%string) cs = false ->
  find_comment (mkDB ps (cs ++ [c]) ls) (Comment.postId c) (Comment.id c)
  = Some c.
Proof.
  unfold find_comment. cbn [comments].
  induction cs as [|q qs IH]; cbn [app find existsb].
  - intros _. rewrite !String.eqb_refl. reflexivity.
  - destruct (Comment.id q =? Comment.id c)%string; cbn [orb andb];
      [discriminate | exact IH].
Qed.

End Crud.

(** X5. Creating a post.  With a body that passes the schema, the route
    either finds the generated id free, answers 201 with a post of that
    id, the fields of the body, the two clock readings and no likes,
    appends it to the table, and a get of the id answers 200 with that
    same post while every other id, the comments and the likes read as
    before; or finds the id taken, answers 500 and writes nothing. *)
Theorem create_post_round_trip (rnd : Entropy) (tc tu : datetime)
    (body : Schemas.NewPost) (db : DB) :
  Schemas.valid_PostBase body = true ->
  let p := Post.mk (generate_id "p" rnd) (Schemas.username body)
                   (Schemas.content body) tc tu 0 in
  let db' := mkDB (posts db ++ [p]) (comments db) (likes db) in
  (find_post db (generate_id "p" rnd) = None ->
   serve (CreatePost rnd tc tu body) db = (PostResponse 201 p, db')
   /\ get_post (generate_id "p" rnd) db' = (PostResponse 200 p, db')
   /\ (forall x, x <> generate_id "p" rnd -> find_post db' x = find_post db x))
  /\ (find_post db (generate_id "p" rnd) <> None ->
      serve (CreatePost rnd tc tu body) db = (ServerError IntegrityError, db)).
Proof.
  intros Hvalid p db'.
  assert (Hf : falsy (Schemas.username body) || falsy (Schemas.content body)
               = false).
  { unfold Schemas.valid_PostBase in Hvalid.
    apply andb_true_iff in Hvalid. destruct Hvalid as [Hu Hc].
    apply falsy_min_length in Hu. apply falsy_min_length in Hc.
    rewrite Hu, Hc. reflexivity. }
  unfold serve, with_body, create_post. rewrite Hvalid, Hf. cbn [Post.id].
  split.
  - intros Hfresh. rewrite Hfresh. split; [reflexivity|].
    destruct db as [ps cs ls]. split.
    + unfold get_post.
      assert (H : find_post db' (generate_id "p" rnd) = Some p)
        by exact (find_post_appended ps cs ls p Hfresh).
      rewrite H. reflexivity.
    + intros x Hx. apply find_post_appended_other. exact Hx.
  - intros Htaken.
    destruct (find_post db (generate_id "p" rnd)); [reflexivity | congruence].
Qed.

(** X6. Creating a comment.  Under an existing post, with a body that
    passes the schema and a generated id that is free, the route answers
    201 with a comment of that post; a get of it under the post answers
    200 with the same comment, the list of the post's comments is the
    former list with the comment at its end, and the lists of all other
    posts, the posts and the likes are as before. *)
Theorem create_comment_round_trip (rnd : Entropy) (tc tu : datetime)
    (postId : string) (body : Schemas.NewComment) (db : DB) (post : Post.t) :
  find_post db postId = Some post ->
  Schemas.valid_CommentBase body = true ->
  (forall c, In c (comments db) -> Comment.id c <> generate_id "c" rnd) ->
  let c := Comment.mk (generate_id "c" rnd) postId (Schemas.c_username body)
                      (Schemas.c_content body) tc tu in
  let db' := mkDB (posts db) (comments db ++ [c]) (likes db) in
  serve (CreateComment rnd tc tu postId body) db = (CommentResponse 201 c, db')
  /\ get_comment postId (generate_id "c" rnd) db' = (CommentResponse 200 c, db')
  /\ list_comments postId db'
     = (CommentListResponse 200 (comments_of db postId ++ [c]), db')
  /\ (forall other, other <> postId ->
                    comments_of db' other = comments_of db other).
Proof.
  intros Hpost Hvalid Hfresh c db'.
  assert (Hf : falsy (Schemas.c_username body) || falsy (Schemas.c_content body)
               = false).
  { unfold Schemas.valid_CommentBase in Hvalid.
    apply andb_true_iff in Hvalid. destruct Hvalid as [Hu Hc].
    apply falsy_min_length in Hu. apply falsy_min_length in Hc.
    rewrite Hu, Hc. reflexivity. }
  assert (Hex : existsb (fun c0 => (Comment.id c0 =? generate_id "c" rnd)%string)
                        (comments db) = false).
  { destruct (existsb _ (comments db)) eqn:E; [|reflexivity].
    apply existsb_exists in E. destruct E as [c0 [Hin Heq]].
    apply String.eqb_eq in Heq. exfalso. exact (Hfresh c0 Hin Heq). }
  unfold serve, with_body, create_comment.
  rewrite Hvalid, Hpost, Hf. cbn [Comment.id]. rewrite Hex.
  split; [reflexivity|]. split; [|split].
  - unfold get_comment.
    assert (H : find_comment db' postId (generate_id "c" rnd) = Some c)
      by exact (find_comment_appended (posts db) (comments db) (likes db) c Hex).
    rewrite H. reflexivity.
  - unfold list_comments.
    change (find_post db' postId) with (find_post db postId). rewrite Hpost.
    unfold comments_of. cbn [db' comments]. rewrite filter_app.
    cbn [filter c Comment.postId]. rewrite String.eqb_refl. reflexivity.
  - intros other Hne. unfold comments_of. cbn [db' comments].
    rewrite filter_app. cbn [filter c Comment.postId].
    assert (E : (postId =? other)%string = false)
      by (apply String.eqb_neq; congruence).
    rewrite E. apply app_nil_r.
Qed.

(** X7. Updating a post.  For an existing post and a body that passes the
    schema the route answers 200 with the post carrying the [username] and
    [content] of the body, its [id], [createdAt] and [likes] kept, and
    [updatedAt] as the flush leaves it: the reading the handler assigned
    or, when that equals the stored one, the reading of the [onupdate]
    hook if a field changed and the stored value if none did.  A get of
    the post answers 200 with that post; the other posts, the comments
    and the likes are as before. *)
Theorem update_post_round_trip (now t_flush : datetime) (postId : string)
    (body : Schemas.UpdatePost) (db : DB) (post : Post.t) :
  find_post db postId = Some post ->
  Schemas.valid_PostBase body = true ->
  let post' :=
    Post.mk postId (Schemas.username body) (Schemas.content body)
            (Post.createdAt post)
            (patch_stamp now t_flush (Post.updatedAt post)
               (negb (Post.username post =? Schemas.username body)%string
                || negb (Post.content post =? Schemas.content body)%string))
            (Post.likes post) in
  exists db',
    serve (UpdatePost now t_flush postId body) db = (PostResponse 200 post', db')
    /\ get_post postId db' = (PostResponse 200 post', db')
    /\ comments db' = comments db
    /\ likes db' = likes db
    /\ map Post.id (posts db') = map Post.id (posts db)
    /\ (forall other, other <> postId ->
                      find_post db' other = find_post db other).
Proof.
  intros Hpost Hvalid post'.
  assert (Hf : falsy (Schemas.username body) || falsy (Schemas.content body)
               = false).
  { unfold Schemas.valid_PostBase in Hvalid.
    apply andb_true_iff in Hvalid. destruct Hvalid as [Hu Hc].
    apply falsy_min_length in Hu. apply falsy_min_length in Hc.
    rewrite Hu, Hc. reflexivity. }
  destruct (update_post_ok now t_flush postId body db post Hpost Hf)
    as (db' & Hrun & Hdb & Hfind).
  fold post' in Hrun, Hdb, Hfind.
  unfold serve, with_body. rewrite Hvalid, Hrun.
  exists db'. split; [reflexivity|]. split.
  { unfold get_post. rewrite Hfind. reflexivity. }
  destruct Hdb as [->|[-> _]].
  - split; [reflexivity|]. split; [reflexivity|].
    split; [apply write_post_ids|].
    intros other Hne. apply find_post_write_other. exact Hne.
  - repeat split; reflexivity.
Qed.

(** X8. Updating a comment.  For a comment found under the post of the
    path and a body that passes the schema the route answers 200 with the
    comment carrying the [username] and [content] of the body, its [id],
    [postId] and [createdAt] kept, and [updatedAt] as the flush leaves it:
    the reading the handler assigned or, when that equals the stored one,
    the reading of the [onupdate] hook if a field changed and the stored
    value if none did.  A get answers 200 with that comment; the posts,
    the likes and the comments of other ids are as before. *)
Theorem update_comment_round_trip (now t_flush : datetime)
    (postId commentId : string)
    (body : Schemas.UpdateComment) (db : DB) (comment : Comment.t) :
  find_comment db postId commentId = Some comment ->
  Schemas.valid_CommentBase body = true ->
  let comment' :=
    Comment.mk commentId postId (Schemas.c_username body)
               (Schemas.c_content body) (Comment.createdAt comment)
               (patch_stamp now t_flush (Comment.updatedAt comment)
                  (negb (Comment.username comment
                         =? Schemas.c_username body)%string
                   || negb (Comment.content comment
                            =? Schemas.c_content body)%string)) in
  exists db',
    serve (UpdateComment now t_flush postId commentId body) db
    = (CommentResponse 200 comment', db')
    /\ get_comment postId commentId db' = (CommentResponse 200 comment', db')
    /\ posts db' = posts db
    /\ likes db' = likes db
    /\ map Comment.id (comments db') = map Comment.id (comments db)
    /\ (forall c, In c (comments db) -> Comment.id c <> commentId ->
                  In c (comments db')).
Proof.
  intros Hfind Hvalid comment'.
  assert (Hf : falsy (Schemas.c_username body) || falsy (Schemas.c_content body)
               = false).
  { unfold Schemas.valid_CommentBase in Hvalid.
    apply andb_true_iff in Hvalid. destruct Hvalid as [Hu Hc].
    apply falsy_min_length in Hu. apply falsy_min_length in Hc.
    rewrite Hu, Hc. reflexivity. }
  destruct (update_comment_ok now t_flush postId commentId body db comment
              Hfind Hf) as (db' & Hrun & Hdb & Hget).
  fold comment' in Hrun, Hdb, Hget.
  unfold serve, with_body. rewrite Hvalid, Hrun.
  exists db'. split; [reflexivity|]. split.
  { unfold get_comment. rewrite Hget. reflexivity. }
  destruct Hdb as [->|[-> _]].
  - split; [reflexivity|]. split; [reflexivity|].
    split; [apply write_comment_ids|].
    intros c Hin Hne. unfold write_comment. cbn [comments].
    apply in_map_iff. exists c. split; [|exact Hin].
    cbn [comment' Comment.id].
    destruct (Comment.id c =? commentId)%string eqn:E; [|reflexivity].
    apply String.eqb_eq in E. contradiction.
  - split; [reflexivity|]. split; [reflexivity|]. split; [reflexivity|].
    intros c Hin _. exact Hin.
Qed.

(** X9. Deleting a comment.  For a comment found under the post of the
    path the route answers 204; afterwards a get of it answers 404, the
    comments left are exactly those of another id, and the posts and the
    likes are as before. *)
Theorem delete_comment_removes_it (postId commentId : string) (db : DB)
    (comment : Comment.t) :
  find_comment db postId commentId = Some comment ->
  exists db',
    serve (DeleteComment postId commentId) db = (EmptyResponse 204, db')
    /\ get_comment postId commentId db'
       = (HTTPException 404 "NOT_FOUND" "Comment not found", db')
    /\ posts db' = posts db
    /\ likes db' = likes db
    /\ (forall c, In c (comments db') <->
                  In c (comments db) /\ Comment.id c <> commentId).
Proof.
  intros Hfind.
  destruct (find_comment_some _ _ _ _ Hfind) as (_ & Hcid & _).
  unfold serve, delete_comment. rewrite Hfind, Hcid.
  eexists. split; [reflexivity|]. split; [|split; [|split]].
  - unfold get_comment, find_comment. cbn [comments].
    rewrite find_filter_none; [reflexivity|].
    intros x Hx. apply andb_true_iff in Hx. tauto.
  - reflexivity.
  - reflexivity.
  - intros c. cbn [comments]. rewrite filter_In, negb_true_iff.
    rewrite String.eqb_neq. reflexivity.
Qed.

(** X10. Deleting a post touches nothing of another post: every other id
    reads the post it read before, with the same comments and the same
    like rows. *)
Theorem delete_post_frame (postId other : string) (db : DB) (post : Post.t) :
  find_post db postId = Some post ->
  other <> postId ->
  find_post (snd (delete_post postId db)) other = find_post db other
  /\ comments_of (snd (delete_post postId db)) other = comments_of db other
  /\ likes_of (snd (delete_post postId db)) other = likes_of db other.
Proof.
  intros Hpost Hne.
  destruct (find_post_some _ _ _ Hpost) as [_ Hid].
  unfold delete_post. rewrite Hpost, Hid. cbn [snd].
  split; [|split].
  - unfold find_post at 1. cbn [posts].
    apply find_post_delete_other. exact Hne.
  - unfold comments_of. cbn [comments]. apply filter_filter_implied.
    intros c Hc. apply String.eqb_eq in Hc.
    apply negb_true_iff, String.eqb_neq. congruence.
  - unfold likes_of. cbn [likes]. apply filter_filter_implied.
    intros l Hl. apply String.eqb_eq in Hl.
    apply negb_true_iff, String.eqb_neq. congruence.
Qed.

(** X11. A missing post comes first.  When no post has the id of the
    path, the seven handlers that resolve the post answer 404 with code
    "NOT_FOUND" and message "Post not found" and write nothing, whatever
    the body: the check of the body comes after the lookup. *)
Theorem post_not_found (now tl t_flush : datetime) (rnd : Entropy)
    (postId : string)
    (pbody : Schemas.UpdatePost) (cbody : Schemas.NewComment)
    (lbody : Schemas.LikeRequest) (db : DB) :
  find_post db postId = None ->
  let missing := (HTTPException 404 "NOT_FOUND" "Post not found", db) in
  get_post postId db = missing
  /\ update_post now t_flush postId pbody db = missing
  /\ delete_post postId db = missing
  /\ list_comments postId db = missing
  /\ create_comment rnd now now postId cbody db = missing
  /\ like_post now tl postId lbody db = missing
  /\ unlike_post now postId lbody db = missing.
Proof.
  intros Hnone missing.
  unfold get_post, update_post, delete_post, list_comments, create_comment,
    like_post, like_post_txn, unlike_post.
  rewrite Hnone. repeat split; reflexivity.
Qed.

(** ** What the routes answer *)

Section Routes.

Lemma valid_PostBase_checked (body : Schemas.PostBase) :
  Schemas.valid_PostBase body = true ->
  falsy (Schemas.username body) || falsy (Schemas.content body) = false.
Proof.
  unfold Schemas.valid_PostBase. intros H.
  apply andb_true_iff in H. destruct H as [Hu Hc].
  apply falsy_min_length in Hu. apply falsy_min_length in Hc.
  rewrite Hu, Hc. reflexivity.
Qed.

Lemma valid_CommentBase_checked (body : Schemas.CommentBase) :
  Schemas.valid_CommentBase body = true ->
  falsy (Schemas.c_username body) || falsy (Schemas.c_content body) = false.
Proof.
  unfold Schemas.valid_CommentBase. intros H.
  apply andb_true_iff in H. destruct H as [Hu Hc].
  apply falsy_min_length in Hu. apply falsy_min_length in Hc.
  rewrite Hu, Hc. reflexivity.
Qed.

Lemma valid_LikeRequest_checked (body : Schemas.LikeRequest) :
  Schemas.valid_LikeRequest body = true ->
  falsy (Schemas.l_username body) = false.
Proof. unfold Schemas.valid_LikeRequest. apply falsy_min_length. Qed.

End Routes.

Ltac route_cases r db :=
  destruct r; unfold serve, with_body;
  unfold list_posts, create_post, get_post, update_post, delete_post,
    list_comments, create_comment, get_comment, update_comment,
    delete_comment, like_post, like_post_txn, unlike_post;
  try match goal with
      | |- context [Schemas.valid_PostBase ?b] =>
          let H := fresh "Hvalid" in
          destruct (Schemas.valid_PostBase b) eqn:H;
          [apply valid_PostBase_checked in H; rewrite ?H|]
      | |- context [Schemas.valid_CommentBase ?b] =>
          let H := fresh "Hvalid" in
          destruct (Schemas.valid_CommentBase b) eqn:H;
          [apply valid_CommentBase_checked in H; rewrite ?H|]
      | |- context [Schemas.valid_LikeRequest ?b] =>
          let H := fresh "Hvalid" in
          destruct (Schemas.valid_LikeRequest b) eqn:H;
          [apply valid_LikeRequest_checked in H; rewrite ?H|]
      end;
  repeat match goal with
         | |- context [match find_post ?d ?x with _ => _ end] =>
             destruct (find_post d x)
         | |- context [match find_comment ?d ?x ?y with _ => _ end] =>
             destruct (find_comment d x y)
         | |- context [match find_like ?d ?x ?y with _ => _ end] =>
             destruct (find_like d x y)
         | |- context [if existsb ?f ?l then _ else _] =>
             destruct (existsb f l)
         end;
  cbn [fst snd status_of not_found bad_request_fields bad_request_username].

(** X12. The handlers' own 400 is never answered.  For every request
    whose body the framework has decoded into the fields of its schema,
    the route does not answer with the "BAD_REQUEST" response of its
    handler, neither the one for the fields of a post or comment nor the
    one for the username of a like: a body that fails the schema is
    answered 422 before the handler runs, and a body that passes the
    schema passes the handler's check.  A request whose body cannot be
    decoded never reaches the schema and is not a [Request] here. *)
Theorem bad_request_unreachable (r : Request) (db : DB) :
  fst (serve r db) <> bad_request_fields
  /\ fst (serve r db) <> bad_request_username.
Proof.
  route_cases r db; split; discriminate.
Qed.

(** X13. An error writes nothing.  Whenever a route answers with a status
    of 400 or above, the database is the one the request found. *)
Theorem serve_error_keeps_db (r : Request) (db : DB) :
  400 <= status_of (fst (serve r db)) -> snd (serve r db) = db.
Proof.
  route_cases r db; try discriminate; intros Hs; try reflexivity; lia.
Qed.

(** ** Like, unlike and their compositions *)

Section LikeUnlike.

Lemma NoDup_map_inj_in {A B : Type} (f : A -> B) (l : list A) (a b : A) :
  NoDup (map f l) -> In a l -> In b l -> f a = f b -> a = b.
Proof.
  induction l as [|x xs IH]; cbn [map In]; intros Hnd Ha Hb Hf; [destruct Ha|].
  inversion Hnd as [|k ks Hnotin Hrest]; subst.
  destruct Ha as [->|Ha]; destruct Hb as [->|Hb].
  - reflexivity.
  - exfalso. apply Hnotin. rewrite Hf. apply in_map, Hb.
  - exfalso. apply Hnotin. rewrite <- Hf. apply in_map, Ha.
  - apply IH; assumption.
Qed.

(** The lookup finds the row a like has just appended when there was
    none of the pair before. *)
Lemma find_like_appended ps cs ls postId username k t :
  find_like (mkDB ps cs ls) postId username = None ->
  find_like (mkDB ps cs (ls ++ [Like.mk k postId username t])) postId username
  = Some (Like.mk k postId username t).
Proof.
  unfold find_like. cbn [likes].
  induction ls as [|l ls IH]; cbn [app find Like.postId Like.username].
  - intros _. rewrite !String.eqb_refl. reflexivity.
  - destruct (_ && _); [discriminate | exact IH].
Qed.

(** A row appended for another username does not show in the lookup. *)
Lemma find_like_appended_other ps cs ls postId username k u t :
  u <> username ->
  find_like (mkDB ps cs (ls ++ [Like.mk k postId u t])) postId username
  = find_like (mkDB ps cs ls) postId username.
Proof.
  intros Hne. unfold find_like. cbn [likes].
  induction ls as [|l ls IH]; cbn [app find Like.postId Like.username].
  - assert (E : (u =? username)%string = false)
      by (apply String.eqb_neq; exact Hne).
    rewrite E, andb_false_r. reflexivity.
  - destruct (_ && _); [reflexivity | exact IH].
Qed.

(** Deleting the row of the next id from the table it was appended to
    gives the table back. *)
Lemma filter_delete_appended ls postId username t :
  filter (fun l => negb (Like.id l =? next_like_id ls))
         (ls ++ [Like.mk (next_like_id ls) postId username t])
  = ls.
Proof.
  rewrite filter_app. cbn [filter Like.id]. rewrite Z.eqb_refl. cbn [negb].
  rewrite app_nil_r. apply filter_all.
  intros l Hl. apply negb_true_iff, Z.eqb_neq.
  apply like_id_lt_next in Hl. lia.
Qed.

End LikeUnlike.

(** X14. Like, then unlike.  For an existing post with a counter of at
    least 0 and a user who has not liked it, a like followed by an unlike
    of the same user gives back the like rows and the counter: the unlike
    answers 200 with the post as it was but for [updatedAt], which is the
    clock reading of the unlike; the comments and the other posts are as
    before. *)
Theorem like_then_unlike (tp tl now : datetime) (postId : string)
    (req : Schemas.LikeRequest) (db : DB) (post : Post.t) :
  find_post db postId = Some post ->
  falsy (Schemas.l_username req) = false ->
  find_like db postId (Schemas.l_username req) = None ->
  0 <= Post.likes post ->
  let post2 := Post.mk (Post.id post) (Post.username post) (Post.content post)
                       (Post.createdAt post) now (Post.likes post) in
  exists db2,
    unlike_post now postId req (snd (like_post tp tl postId req db))
    = (PostResponse 200 post2, db2)
    /\ likes db2 = likes db
    /\ comments db2 = comments db
    /\ find_post db2 postId = Some post2
    /\ (forall other, other <> postId ->
                      find_post db2 other = find_post db other).
Proof.
  intros Hpost Hname Hlike Hnn post2.
  destruct (find_post_some _ _ _ Hpost) as [_ Hid]. subst postId.
  unfold like_post, like_post_txn. rewrite Hpost, Hname, Hlike, Hpost.
  cbn [snd].
  set (post1 := set_likes tp (Post.likes post) (Post.likes post + 1) post).
  assert (Hrow1 : post1 = Post.mk (Post.id post) (Post.username post)
                    (Post.content post) (Post.createdAt post) tp
                    (Post.likes post + 1)).
  { unfold post1, set_likes.
    destruct (Post.likes post + 1 =? Post.likes post) eqn:E; [|reflexivity].
    apply Z.eqb_eq in E. lia. }
  set (db1 := mkDB _ _ _).
  assert (Hpost1 : find_post db1 (Post.id post) = Some post1).
  { change (find_post (write_post post1 db) (Post.id post) = Some post1).
    replace (Post.id post) with (Post.id post1) by (rewrite Hrow1; reflexivity).
    apply (find_post_write db post). rewrite Hrow1. exact Hpost. }
  assert (Hlike1 : find_like db1 (Post.id post) (Schemas.l_username req)
                   = Some (Like.mk (next_like_id (likes db)) (Post.id post)
                                   (Schemas.l_username req) tl)).
  { apply find_like_appended. destruct db as [ps cs ls]. exact Hlike. }
  unfold unlike_post. rewrite Hpost1, Hname, Hlike1. cbn [Like.id].
  assert (Hrow2 : set_likes now (Post.likes post1)
                    (Z.max 0 (Post.likes post1 - 1)) post1 = post2).
  { rewrite Hrow1. unfold set_likes. cbn [Post.likes].
    replace (Z.max 0 (Post.likes post + 1 - 1)) with (Post.likes post) by lia.
    destruct (Post.likes post =? Post.likes post + 1) eqn:E; [|reflexivity].
    apply Z.eqb_eq in E. lia. }
  rewrite Hrow2. eexists. split; [reflexivity|].
  split; [apply filter_delete_appended|]. split; [reflexivity|].
  split.
  - change (find_post (write_post post2 db1) (Post.id post) = Some post2).
    apply (find_post_write db1 post1 post2). exact Hpost1.
  - intros other Hne.
    change (find_post (write_post post2 db1) other = find_post db other).
    rewrite find_post_write_other by exact Hne.
    change (find_post (write_post post1 db) other = find_post db other).
    apply find_post_write_other. rewrite Hrow1. exact Hne.
Qed.

(** X15. Unliking twice is unliking once.  In every state the database
    can reach, for an existing post and a non-empty username, the second
    of two unlikes answers 200 with the post the first one answered with
    and writes nothing: the first has left no like row of the pair. *)
Theorem unlike_twice_is_once (t1 t2 : datetime) (postId : string)
    (req : Schemas.LikeRequest) (db : DB) (post : Post.t) :
  reachable db ->
  find_post db postId = Some post ->
  falsy (Schemas.l_username req) = false ->
  exists p1 db1,
    unlike_post t1 postId req db = (PostResponse 200 p1, db1)
    /\ find_like db1 postId (Schemas.l_username req) = None
    /\ unlike_post t2 postId req db1 = (PostResponse 200 p1, db1).
Proof.
  intros Hr Hpost Hname.
  pose proof (like_keys_unique db (reachable_integrity db Hr)) as Hkeys.
  destruct (find_post_some _ _ _ Hpost) as [_ Hid]. subst postId.
  unfold unlike_post at 1. rewrite Hpost, Hname.
  destruct (find_like db (Post.id post) (Schemas.l_username req))
    as [like|] eqn:Hlike.
  - set (p1 := set_likes t1 _ _ post). set (db1 := mkDB _ _ _).
    assert (Hpost1 : find_post db1 (Post.id post) = Some p1).
    { change (find_post (write_post p1 db) (Post.id post) = Some p1).
      replace (Post.id post) with (Post.id p1) by apply set_likes_id.
      apply (find_post_write db post). unfold p1. rewrite set_likes_id.
      exact Hpost. }
    assert (Hnone : find_like db1 (Post.id post) (Schemas.l_username req)
                    = None).
    { destruct (find_like db1 _ _) as [l|] eqn:E; [|reflexivity].
      apply find_like_some in E. destruct E as (Hl & Hlp & Hlu).
      cbn [db1 likes] in Hl. apply filter_In in Hl. destruct Hl as [Hl Hne].
      apply find_like_some in Hlike. destruct Hlike as (Hk & Hkp & Hku).
      assert (l = like).
      { apply (NoDup_map_inj_in like_key (likes db)); try assumption.
        unfold like_key. congruence. }
      subst l. rewrite Z.eqb_refl in Hne. discriminate. }
    exists p1, db1. split; [reflexivity|]. split; [exact Hnone|].
    unfold unlike_post. rewrite Hpost1, Hname, Hnone. reflexivity.
  - exists post, db. split; [reflexivity|]. split; [exact Hlike|].
    unfold unlike_post. rewrite Hpost, Hname, Hlike. reflexivity.
Qed.

(** X16. Unlike where the counter agrees with the rows.  Take a database
    whose like ids are distinct and a post whose [likes] equals the number
    of its like rows.  If a user has liked the post, [likes] is at least
    1, and the unlike of that user answers 200 with [likes] exactly one
    less, [updatedAt] at the clock reading of the flush, one like row
    fewer, and [likes] still equal to the number of rows: the clamp at 0
    changes nothing there. *)
Theorem unlike_post_decrements (now : datetime) (postId : string)
    (req : Schemas.LikeRequest) (db : DB) (post : Post.t) (like : Like.t) :
  NoDup (map Like.id (likes db)) ->
  find_post db postId = Some post ->
  falsy (Schemas.l_username req) = false ->
  find_like db postId (Schemas.l_username req) = Some like ->
  Post.likes post = Z.of_nat (length (likes_of db postId)) ->
  1 <= Post.likes post
  /\ exists post' db',
      unlike_post now postId req db = (PostResponse 200 post', db')
      /\ Post.likes post' = Post.likes post - 1
      /\ Post.updatedAt post' = now
      /\ length (likes_of db' postId) = pred (length (likes_of db postId))
      /\ Post.likes post' = Z.of_nat (length (likes_of db' postId)).
Proof.
  intros Hids Hpost Hname Hlike Hcount.
  destruct (find_post_some _ _ _ Hpost) as [Hin Hid]. subst postId.
  destruct (find_like_some _ _ _ _ Hlike) as (Hl & Hlp & _).
  assert (Hin_of : In like (likes_of db (Post.id post))).
  { unfold likes_of. apply filter_In. split; [exact Hl|].
    apply String.eqb_eq. exact Hlp. }
  assert (Hpos : 1 <= Post.likes post).
  { destruct (likes_of db (Post.id post)); [destruct Hin_of|].
    cbn [length] in Hcount. lia. }
  split; [exact Hpos|].
  unfold unlike_post. rewrite Hpost, Hname, Hlike.
  assert (Hrow : set_likes now (Post.likes post)
                   (Z.max 0 (Post.likes post - 1)) post
                 = Post.mk (Post.id post) (Post.username post)
                     (Post.content post) (Post.createdAt post) now
                     (Post.likes post - 1)).
  { unfold set_likes. replace (Z.max 0 (Post.likes post - 1))
      with (Post.likes post - 1) by lia.
    destruct (Post.likes post - 1 =? Post.likes post) eqn:E; [|reflexivity].
    apply Z.eqb_eq in E. lia. }
  rewrite Hrow. eexists. eexists. split; [reflexivity|].
  split; [reflexivity|]. split; [reflexivity|].
  unfold likes_of in *. cbn [likes Post.likes].
  pose proof (filter_delete_like
                (fun l => (Like.postId l =? Post.id post)%string)
                (likes db) like Hids Hl) as Hdel.
  cbv beta in Hdel. rewrite Hlp, String.eqb_refl in Hdel.
  split; lia.
Qed.

(** X17. Two likes of one pair that both read too early.  When two like
    requests of the same user for the same post have both read the
    database before either has written (neither sees a like row) and are
    then flushed one after the other, the first inserts the row and adds
    one to the counter, the second meets the unique constraint, writes
    nothing and answers 200 with the post as the first left it: one row,
    one count. *)
Theorem like_post_twice_at_once (t1 t1' t2 t2' : datetime) (postId : string)
    (req : Schemas.LikeRequest) (db : DB) (post : Post.t) :
  find_post db postId = Some post ->
  falsy (Schemas.l_username req) = false ->
  find_like db postId (Schemas.l_username req) = None ->
  exists p1 db1,
    like_post_txn t1 t1' postId req db db = (PostResponse 200 p1, db1)
    /\ like_post_txn t2 t2' postId req db db1 = (PostResponse 200 p1, db1)
    /\ Post.likes p1 = Post.likes post + 1
    /\ find_post db1 postId = Some p1
    /\ likes_of db1 postId
       = (likes_of db postId
          ++ [Like.mk (next_like_id (likes db)) postId
                      (Schemas.l_username req) t1'])%list.
Proof.
  intros Hpost Hname Hlike.
  destruct (find_post_some _ _ _ Hpost) as [_ Hid]. subst postId.
  unfold like_post_txn at 1. rewrite Hpost, Hname, Hlike, Hpost.
  set (p1 := set_likes t1 (Post.likes post) (Post.likes post + 1) post).
  set (db1 := mkDB _ _ _).
  assert (Hpost1 : find_post db1 (Post.id post) = Some p1).
  { change (find_post (write_post p1 db) (Post.id post) = Some p1).
    replace (Post.id post) with (Post.id p1) by apply set_likes_id.
    apply (find_post_write db post). unfold p1. rewrite set_likes_id.
    exact Hpost. }
  assert (Hlike1 : find_like db1 (Post.id post) (Schemas.l_username req)
                   <> None) by apply find_like_inserted.
  exists p1, db1. split; [reflexivity|]. split; [|split; [|split]].
  - unfold like_post_txn. rewrite Hpost, Hname, Hlike, Hpost1.
    destruct (find_like db1 _ _); [reflexivity | congruence].
  - apply set_likes_likes. reflexivity.
  - exact Hpost1.
  - unfold likes_of. cbn [db1 likes]. rewrite filter_app.
    cbn [filter Like.postId]. rewrite String.eqb_refl. reflexivity.
Qed.

(** X18. Two likes of different users that both read too early.  When two
    like requests of different users for the same post have both read the
    database before either has written and are then flushed one after the
    other, both insert their row and both answer 200, but the second
    writes the counter from the value it read: the counter is one more
    than before with two rows more, so a counter that agreed with the
    rows no longer does. *)
Theorem like_post_lost_update (t1 t1' t2 t2' : datetime) (postId : string)
    (req1 req2 : Schemas.LikeRequest) (db : DB) (post : Post.t) :
  find_post db postId = Some post ->
  falsy (Schemas.l_username req1) = false ->
  falsy (Schemas.l_username req2) = false ->
  Schemas.l_username req1 <> Schemas.l_username req2 ->
  find_like db postId (Schemas.l_username req1) = None ->
  find_like db postId (Schemas.l_username req2) = None ->
  exists p1 db1 p2 db2,
    like_post_txn t1 t1' postId req1 db db = (PostResponse 200 p1, db1)
    /\ like_post_txn t2 t2' postId req2 db db1 = (PostResponse 200 p2, db2)
    /\ find_post db2 postId = Some p2
    /\ Post.likes p2 = Post.likes post + 1
    /\ length (likes_of db2 postId) = (length (likes_of db postId) + 2)%nat
    /\ (Post.likes post = Z.of_nat (length (likes_of db postId)) ->
        Post.likes p2 <> Z.of_nat (length (likes_of db2 postId))).
Proof.
  intros Hpost Hname1 Hname2 Hdiff Hlike1 Hlike2.
  destruct (find_post_some _ _ _ Hpost) as [_ Hid]. subst postId.
  unfold like_post_txn at 1. rewrite Hpost, Hname1, Hlike1, Hpost.
  set (p1 := set_likes t1 (Post.likes post) (Post.likes post + 1) post).
  set (db1 := mkDB _ _ _).
  assert (Hid1 : Post.id p1 = Post.id post) by apply set_likes_id.
  assert (Hpost1 : find_post db1 (Post.id post) = Some p1).
  { change (find_post (write_post p1 db) (Post.id post) = Some p1).
    rewrite <- Hid1. apply (find_post_write db post). rewrite Hid1.
    exact Hpost. }
  assert (Hnone : find_like db1 (Post.id post) (Schemas.l_username req2)
                  = None).
  { unfold db1. rewrite find_like_appended_other by exact Hdiff.
    exact Hlike2. }
  exists p1, db1.
  unfold like_post_txn. rewrite Hpost, Hname2, Hlike2, Hpost1, Hnone.
  set (p2 := set_likes t2 (Post.likes post) (Post.likes post + 1) p1).
  assert (Hlikes2 : Post.likes p2 = Post.likes post + 1).
  { unfold p2, set_likes.
    destruct (Post.likes post + 1 =? Post.likes post) eqn:E; [|reflexivity].
    apply Z.eqb_eq in E. lia. }
  assert (Hid2 : Post.id p2 = Post.id post)
    by (unfold p2; rewrite set_likes_id; exact Hid1).
  assert (Hrows : length (likes_of (mkDB (posts (write_post p2 db1))
                                         (comments db1)
                                         (likes db1 ++ [Like.mk (next_like_id (likes db1))
                                                          (Post.id post)
                                                          (Schemas.l_username req2) t2']))
                                   (Post.id post))
                  = (length (likes_of db (Post.id post)) + 2)%nat).
  { unfold likes_of. cbn [db1 likes]. rewrite !filter_app, !length_app.
    cbn [filter Like.postId]. rewrite String.eqb_refl. cbn [length]. lia. }
  eexists. eexists.
  split; [reflexivity|]. split; [reflexivity|].
  split; [|split; [exact Hlikes2 | split; [exact Hrows|]]].
  - change (find_post (write_post p2 db1) (Post.id post) = Some p2).
    rewrite <- Hid2. apply (find_post_write db1 p1). rewrite Hid2.
    exact Hpost1.
  - intros Hagree. rewrite Hlikes2, Hrows, Hagree. lia.
Qed.

(** ** The identifier and the draws *)

Section Draws.

Lemma append_cancel (p a b : string) : (p ++ a = p ++ b)%string -> a = b.
Proof.
  induction p as [|c p IH]; cbn [append]; intros H; [exact H|].
  inversion H. auto.
Qed.

Lemma append_length (a b : string) :
  String.length (a ++ b)%string = (String.length a + String.length b)%nat.
Proof.
  induction a as [|c a IH]; cbn [append String.length Nat.add];
    [reflexivity | rewrite IH; reflexivity].
Qed.

(** The 64 characters of the alphabet are distinct: equal choices come
    from draws that agree modulo 64. *)
Lemma choice_chars_inj (a b : nat) :
  choice chars a = choice chars b -> (a mod 64 = b mod 64)%nat.
Proof.
  unfold choice. rewrite chars_length.
  assert (Ha : (a mod 64 < 64)%nat) by (apply Nat.mod_upper_bound; discriminate).
  assert (Hb : (b mod 64 < 64)%nat) by (apply Nat.mod_upper_bound; discriminate).
  assert (Hall : forallb (fun i =>
            forallb (fun j =>
              match String.get i chars, String.get j chars with
              | Some x, Some y => negb (Ascii.eqb x y) || (i =? j)%nat
              | _, _ => false
              end) (seq 0 64)) (seq 0 64) = true) by (vm_compute; reflexivity).
  rewrite forallb_forall in Hall.
  assert (Hi : In (a mod 64)%nat (seq 0 64)) by (apply in_seq; lia).
  specialize (Hall _ Hi). rewrite forallb_forall in Hall.
  assert (Hj : In (b mod 64)%nat (seq 0 64)) by (apply in_seq; lia).
  specialize (Hall _ Hj).
  destruct (String.get (a mod 64) chars) as [x|]; [|discriminate].
  destruct (String.get (b mod 64) chars) as [y|]; [|discriminate].
  intros ->. rewrite Ascii.eqb_refl in Hall. cbn [negb orb] in Hall.
  apply Nat.eqb_eq. exact Hall.
Qed.

End Draws.

(** X19. The identifier and the draws.  An identifier is 9 characters
    longer than its prefix; two identifiers of one prefix are equal
    exactly when their eight draws agree modulo 64, the size of the
    alphabet; and an identifier made with prefix "p" is never one made
    with prefix "c". *)
Theorem generate_id_draws (prefix : string) (r1 r2 : Entropy) :
  String.length (generate_id prefix r1) = (String.length prefix + 9)%nat
  /\ (generate_id prefix r1 = generate_id prefix r2 <->
      forall k, (k < 8)%nat -> (r1 k mod 64 = r2 k mod 64)%nat)
  /\ generate_id "p" r1 <> generate_id "c" r2.
Proof.
  split; [|split].
  - unfold generate_id. rewrite !append_length.
    rewrite random_part_length. cbn [String.length]. lia.
  - unfold generate_id. split.
    + intros H. apply append_cancel in H.
      change ("_" ++ random_part r1 = "_" ++ random_part r2)%string in H.
      apply append_cancel in H.
      unfold random_part in H. cbn [seq map string_of_list_ascii] in H.
      inversion H as [[H0 H1 H2 H3 H4 H5 H6 H7]].
      intros k Hk.
      do 8 (destruct k as [|k]; [apply choice_chars_inj; assumption|]).
      lia.
    + intros H. do 2 f_equal.
      unfold random_part. cbn [seq map string_of_list_ascii].
      unfold choice. rewrite chars_length.
      rewrite (H 0%nat), (H 1%nat), (H 2%nat), (H 3%nat), (H 4%nat),
        (H 5%nat), (H 6%nat), (H 7%nat) by lia.
      reflexivity.
  - unfold generate_id. cbn [append]. intros H. inversion H.
Qed.

(** ** Lists and single reads agree *)

(** X20. What is listed can be fetched.  In every state the database can
    reach, every post that [list_posts] returns is what [get_post] returns
    for its id, and every comment that [list_comments] returns for a post
    is what [get_comment] returns for its id under that post. *)
Theorem listed_rows_are_fetched (db : DB) :
  reachable db ->
  (forall ps p,
      list_posts db = (PostListResponse 200 ps, db) -> In p ps ->
      get_post (Post.id p) db = (PostResponse 200 p, db))
  /\ (forall postId cs c,
         list_comments postId db = (CommentListResponse 200 cs, db) ->
         In c cs ->
         get_comment postId (Comment.id c) db = (CommentResponse 200 c, db)).
Proof.
  intros Hr. pose proof (reachable_integrity db Hr) as Hi. split.
  - intros ps p Hlist Hin. unfold list_posts in Hlist.
    inversion Hlist; subst ps. unfold get_post.
    destruct (find_post db (Post.id p)) as [q|] eqn:Hfind.
    + destruct (find_post_some _ _ _ Hfind) as [Hq Hid].
      rewrite (NoDup_map_inj_in Post.id (posts db) q p
                 (post_ids_unique db Hi) Hq Hin Hid).
      reflexivity.
    + exfalso. exact (find_post_none _ _ Hfind p Hin eq_refl).
  - intros postId cs c Hlist Hin. unfold list_comments in Hlist.
    destruct (find_post db postId); [|discriminate].
    inversion Hlist; subst cs. unfold comments_of in Hin.
    apply filter_In in Hin. destruct Hin as [Hin Hpid].
    unfold get_comment.
    destruct (find_comment db postId (Comment.id c)) as [q|] eqn:Hfind.
    + destruct (find_comment_some _ _ _ _ Hfind) as (Hq & Hid & _).
      rewrite (NoDup_map_inj_in Comment.id (comments db) q c
                 (comment_ids_unique db Hi) Hq Hin Hid).
      reflexivity.
    + exfalso. unfold find_comment in Hfind.
      apply (find_none _ _ Hfind) in Hin.
      rewrite String.eqb_refl, Hpid in Hin. discriminate.
Qed.

(** X21. The counter, for requests served one after another.  From a
    database in which like ids are distinct, every like row belongs to a
    stored post and the [likes] of every post is the number of its like
    rows (the empty database is one), any list of requests of the twelve
    routes, each served to its end before the next starts, leads to a
    database in which the [likes] of every stored post is the number of
    its like rows.  Requests that overlap are not covered: X18 shows two
    of them breaking the agreement. *)
Theorem likes_counts_rows (rs : list Request) (db : DB) (p : Post.t) :
  consistent db ->
  In p (posts (serve_all rs db)) ->
  Post.likes p = Z.of_nat (length (likes_of (serve_all rs db) (Post.id p))).
Proof.
  intros Hc Hin.
  assert (Hall : consistent (serve_all rs db)).
  { unfold serve_all. clear Hin. revert db Hc.
    induction rs as [|r rs IH]; intros db Hc; cbn [fold_left]; [exact Hc|].
    apply IH. apply consistent_serve. exact Hc. }
  apply (likes_counted _ Hall). exact Hin.
Qed.

(** ** The further properties at work on the small database *)

Lemma ids_are_unique_witness :
  NoDup (map Post.id (posts db_two_posts))
  /\ NoDup (map Comment.id (comments db_two_posts)).
Proof. exact (ids_are_unique db_two_posts reachable_db_two_posts). Defined.

Lemma rows_reference_a_post_witness :
  (forall c, In c (comments db_two_posts) ->
             exists p, find_post db_two_posts (Comment.postId c) = Some p)
  /\ (forall l, In l (likes db_two_posts) ->
                exists p, find_post db_two_posts (Like.postId l) = Some p).
Proof.
  assert (Hempty : references_ok empty_db)
    by (split; intros ? []).
  exact (rows_reference_a_post four_requests empty_db Hempty).
Defined.

Lemma one_like_per_user_witness :
  NoDup (map like_key (likes db_two_posts)).
Proof.
  exact (proj1 (one_like_per_user db_two_posts reachable_db_two_posts)).
Defined.

Lemma rows_pass_response_model_witness :
  (forall p, In p (posts db_two_posts) -> response_model_Post p = true)
  /\ (forall c, In c (comments db_two_posts) ->
                response_model_Comment c = true).
Proof.
  exact (rows_pass_response_model db_two_posts reachable_db_two_posts).
Defined.

(** Dave's post is created with a free id. *)
Lemma create_post_round_trip_witness :
  serve (CreatePost rnd_b 400 400 (Schemas.mkPostBase "dave" "hi")) db_commented
  = (PostResponse 201 (Post.mk "p_bcdefghi" "dave" "hi" 400 400 0),
     db_two_posts)
  /\ get_post "p_bcdefghi" db_two_posts
     = (PostResponse 200 (Post.mk "p_bcdefghi" "dave" "hi" 400 400 0),
        db_two_posts).
Proof.
  pose proof (proj1 (create_post_round_trip rnd_b 400 400
                       (Schemas.mkPostBase "dave" "hi") db_commented eq_refl)
                eq_refl) as (Hcreate & Hget & _).
  exact (conj Hcreate Hget).
Defined.

(** Carol's comment is created under alice's post. *)
Lemma create_comment_round_trip_witness :
  serve (CreateComment rnd_b 300 300 "p_aaaaaaaa"
                       (Schemas.mkCommentBase "carol" "nice")) db_liked
  = (CommentResponse 201
       (Comment.mk "c_bcdefghi" "p_aaaaaaaa" "carol" "nice" 300 300),
     db_commented)
  /\ get_comment "p_aaaaaaaa" "c_bcdefghi" db_commented
     = (CommentResponse 200
          (Comment.mk "c_bcdefghi" "p_aaaaaaaa" "carol" "nice" 300 300),
        db_commented).
Proof.
  assert (Hfresh : forall c, In c (comments db_liked) ->
                             Comment.id c <> generate_id "c" rnd_b)
    by (intros c []).
  pose proof (create_comment_round_trip rnd_b 300 300 "p_aaaaaaaa"
                (Schemas.mkCommentBase "carol" "nice") db_liked
                (Post.mk "p_aaaaaaaa" "alice" "hello" 100 200 1)
                eq_refl eq_refl Hfresh) as (Hcreate & Hget & _).
  exact (conj Hcreate Hget).
Defined.

Lemma update_post_round_trip_witness :
  exists db',
    serve (UpdatePost 700 701 "p_aaaaaaaa"
                      (Schemas.mkPostBase "alice" "hello again")) db_two_posts
    = (PostResponse 200
         (Post.mk "p_aaaaaaaa" "alice" "hello again" 100 700 1), db')
    /\ get_post "p_aaaaaaaa" db'
       = (PostResponse 200
            (Post.mk "p_aaaaaaaa" "alice" "hello again" 100 700 1), db').
Proof.
  destruct (update_post_round_trip 700 701 "p_aaaaaaaa"
              (Schemas.mkPostBase "alice" "hello again") db_two_posts
              (Post.mk "p_aaaaaaaa" "alice" "hello" 100 200 1)
              eq_refl eq_refl) as (db' & Hserve & Hget & _).
  exists db'. exact (conj Hserve Hget).
Defined.

(** Carol edits her comment while the clock still reads what [updatedAt]
    holds, 300: the hook stamps the row with its own reading, 301. *)
Lemma update_comment_round_trip_witness :
  exists db',
    serve (UpdateComment 300 301 "p_aaaaaaaa" "c_bcdefghi"
                         (Schemas.mkCommentBase "carol" "very nice"))
          db_two_posts
    = (CommentResponse 200
         (Comment.mk "c_bcdefghi" "p_aaaaaaaa" "carol" "very nice" 300 301),
       db')
    /\ get_comment "p_aaaaaaaa" "c_bcdefghi" db'
       = (CommentResponse 200
            (Comment.mk "c_bcdefghi" "p_aaaaaaaa" "carol" "very nice" 300 301),
          db').
Proof.
  destruct (update_comment_round_trip 300 301 "p_aaaaaaaa" "c_bcdefghi"
              (Schemas.mkCommentBase "carol" "very nice") db_two_posts
              (Comment.mk "c_bcdefghi" "p_aaaaaaaa" "carol" "nice" 300 300)
              eq_refl eq_refl) as (db' & Hserve & Hget & _).
  exists db'. exact (conj Hserve Hget).
Defined.

Lemma delete_comment_removes_it_witness :
  exists db',
    serve (DeleteComment "p_aaaaaaaa" "c_bcdefghi") db_two_posts
    = (EmptyResponse 204, db')
    /\ get_comment "p_aaaaaaaa" "c_bcdefghi" db'
       = (HTTPException 404 "NOT_FOUND" "Comment not found", db').
Proof.
  destruct (delete_comment_removes_it "p_aaaaaaaa" "c_bcdefghi" db_two_posts
              (Comment.mk "c_bcdefghi" "p_aaaaaaaa" "carol" "nice" 300 300)
              eq_refl) as (db' & Hserve & Hget & _).
  exists db'. exact (conj Hserve Hget).
Defined.

(** Alice's post goes, dave's stays. *)
Lemma delete_post_frame_witness :
  find_post (snd (delete_post "p_aaaaaaaa" db_two_posts)) "p_bcdefghi"
  = find_post db_two_posts "p_bcdefghi".
Proof.
  apply (delete_post_frame "p_aaaaaaaa" "p_bcdefghi" db_two_posts
           (Post.mk "p_aaaaaaaa" "alice" "hello" 100 200 1)).
  - reflexivity.
  - discriminate.
Defined.

Lemma post_not_found_witness :
  update_post 700 701 "p_zzzzzzzz" (Schemas.mkPostBase "" "") db_two_posts
  = (HTTPException 404 "NOT_FOUND" "Post not found", db_two_posts).
Proof.
  apply (post_not_found 700 700 701 rnd_a "p_zzzzzzzz"
           (Schemas.mkPostBase "" "")
           (Schemas.mkCommentBase "" "") (Schemas.mkLikeRequest "")
           db_two_posts).
  reflexivity.
Defined.

Lemma serve_error_keeps_db_witness :
  snd (serve (GetPost "p_zzzzzzzz") db_two_posts) = db_two_posts.
Proof.
  apply (serve_error_keeps_db (GetPost "p_zzzzzzzz") db_two_posts).
  vm_compute. discriminate.
Defined.

(** Carol likes alice's post and takes the like back. *)
Lemma like_then_unlike_witness :
  exists db2,
    unlike_post 600 "p_aaaaaaaa" (Schemas.mkLikeRequest "carol")
      (snd (like_post 500 501 "p_aaaaaaaa" (Schemas.mkLikeRequest "carol")
                      db_two_posts))
    = (PostResponse 200 (Post.mk "p_aaaaaaaa" "alice" "hello" 100 600 1), db2)
    /\ likes db2 = likes db_two_posts.
Proof.
  assert (Hnn : 0 <= Post.likes (Post.mk "p_aaaaaaaa" "alice" "hello" 100 200 1))
    by (cbn; lia).
  destruct (like_then_unlike 500 501 600 "p_aaaaaaaa"
              (Schemas.mkLikeRequest "carol") db_two_posts
              (Post.mk "p_aaaaaaaa" "alice" "hello" 100 200 1)
              eq_refl eq_refl eq_refl Hnn) as (db2 & Hrun & Hlikes & _).
  exists db2. exact (conj Hrun Hlikes).
Defined.

(** Bob takes his like back twice. *)
Lemma unlike_twice_is_once_witness :
  exists p1 db1,
    unlike_post 500 "p_aaaaaaaa" (Schemas.mkLikeRequest "bob") db_two_posts
    = (PostResponse 200 p1, db1)
    /\ find_like db1 "p_aaaaaaaa" "bob" = None
    /\ unlike_post 600 "p_aaaaaaaa" (Schemas.mkLikeRequest "bob") db1
       = (PostResponse 200 p1, db1).
Proof.
  exact (unlike_twice_is_once 500 600 "p_aaaaaaaa"
           (Schemas.mkLikeRequest "bob") db_two_posts
           (Post.mk "p_aaaaaaaa" "alice" "hello" 100 200 1)
           reachable_db_two_posts eq_refl eq_refl).
Defined.

Lemma unlike_post_decrements_witness :
  exists post' db',
    unlike_post 500 "p_aaaaaaaa" (Schemas.mkLikeRequest "bob") db_two_posts
    = (PostResponse 200 post', db')
    /\ Post.likes post' = 1 - 1
    /\ Post.updatedAt post' = 500.
Proof.
  assert (Hids : NoDup (map Like.id (likes db_two_posts)))
    by (constructor; [intros [] | constructor]).
  destruct (unlike_post_decrements 500 "p_aaaaaaaa"
              (Schemas.mkLikeRequest "bob") db_two_posts
              (Post.mk "p_aaaaaaaa" "alice" "hello" 100 200 1)
              (Like.mk 1 "p_aaaaaaaa" "bob" 201)
              Hids eq_refl eq_refl eq_refl eq_refl)
    as (_ & post' & db' & Hrun & Hlikes & Hstamp & _).
  exists post', db'. exact (conj Hrun (conj Hlikes Hstamp)).
Defined.

(** Carol's like arrives twice at once. *)
Lemma like_post_twice_at_once_witness :
  exists p1 db1,
    like_post_txn 500 501 "p_aaaaaaaa" (Schemas.mkLikeRequest "carol")
                  db_two_posts db_two_posts
    = (PostResponse 200 p1, db1)
    /\ like_post_txn 502 503 "p_aaaaaaaa" (Schemas.mkLikeRequest "carol")
                     db_two_posts db1
       = (PostResponse 200 p1, db1)
    /\ Post.likes p1 = 1 + 1.
Proof.
  destruct (like_post_twice_at_once 500 501 502 503 "p_aaaaaaaa"
              (Schemas.mkLikeRequest "carol") db_two_posts
              (Post.mk "p_aaaaaaaa" "alice" "hello" 100 200 1)
              eq_refl eq_refl eq_refl)
    as (p1 & db1 & Hfirst & Hsecond & Hlikes & _).
  exists p1, db1. exact (conj Hfirst (conj Hsecond Hlikes)).
Defined.

(** Carol's and dave's likes arrive at once: three rows, a counter of 2. *)
Lemma like_post_lost_update_witness :
  exists p1 db1 p2 db2,
    like_post_txn 500 501 "p_aaaaaaaa" (Schemas.mkLikeRequest "carol")
                  db_two_posts db_two_posts
    = (PostResponse 200 p1, db1)
    /\ like_post_txn 502 503 "p_aaaaaaaa" (Schemas.mkLikeRequest "dave")
                     db_two_posts db1
       = (PostResponse 200 p2, db2)
    /\ Post.likes p2 = 1 + 1
    /\ length (likes_of db2 "p_aaaaaaaa")
       = (length (likes_of db_two_posts "p_aaaaaaaa") + 2)%nat.
Proof.
  assert (Hdiff : Schemas.l_username (Schemas.mkLikeRequest "carol")
                  <> Schemas.l_username (Schemas.mkLikeRequest "dave"))
    by discriminate.
  destruct (like_post_lost_update 500 501 502 503 "p_aaaaaaaa"
              (Schemas.mkLikeRequest "carol") (Schemas.mkLikeRequest "dave")
              db_two_posts (Post.mk "p_aaaaaaaa" "alice" "hello" 100 200 1)
              eq_refl eq_refl eq_refl Hdiff eq_refl eq_refl)
    as (p1 & db1 & p2 & db2 & Hfirst & Hsecond & _ & Hlikes & Hrows & _).
  exists p1, db1, p2, db2.
  exact (conj Hfirst (conj Hsecond (conj Hlikes Hrows))).
Defined.

Lemma listed_rows_are_fetched_witness :
  get_post "p_bcdefghi" db_two_posts
  = (PostResponse 200 (Post.mk "p_bcdefghi" "dave" "hi" 400 400 0),
     db_two_posts)
  /\ get_comment "p_aaaaaaaa" "c_bcdefghi" db_two_posts
     = (CommentResponse 200
          (Comment.mk "c_bcdefghi" "p_aaaaaaaa" "carol" "nice" 300 300),
        db_two_posts).
Proof.
  destruct (listed_rows_are_fetched db_two_posts reachable_db_two_posts)
    as [Hposts Hcomments].
  split.
  - apply (Hposts (posts db_two_posts)
                  (Post.mk "p_bcdefghi" "dave" "hi" 400 400 0)).
    + reflexivity.
    + right. left. reflexivity.
  - apply (Hcomments "p_aaaaaaaa" (comments_of db_two_posts "p_aaaaaaaa")
                     (Comment.mk "c_bcdefghi" "p_aaaaaaaa" "carol" "nice" 300 300)).
    + reflexivity.
    + left. reflexivity.
Defined.

Lemma likes_counts_rows_witness :
  1 = Z.of_nat (length (likes_of db_two_posts "p_aaaaaaaa")).
Proof.
  apply (likes_counts_rows four_requests empty_db
           (Post.mk "p_aaaaaaaa" "alice" "hello" 100 200 1)
           consistent_empty).
  left. reflexivity.
Defined.
